(** * Pentadata-python: the token life cycle of [PentaApi]

    A shallow embedding of [pentadata_api.py].  The class [PentaApi] keeps a
    bearer token and a refresh token, renews them lazily and forwards the
    four HTTP verbs to the [requests] package.  The methods are embedded as
    computations in a state-and-exception monad over

    - the attributes of the instance ([self]),
    - the log of the calls made to [requests], in the order they were made,
    - the number of times the clock has been read.

    The collaborators the class does not define ([requests],
    [datetime.strptime], [datetime.utcnow]) are the fields of the class
    [Env]; every statement below holds for all of them. *)

From Stdlib Require Import ZArith String List Lia.
From stdpp Require Import base option strings gmap pretty.

Local Open Scope string_scope.
Local Open Scope list_scope.
Local Open Scope Z_scope.

Local Set Warnings "-register-all".

(** ** Python values *)

(** The exceptions the code can raise.  [ValueError] is the one the class
    raises itself; [KeyError] comes from [data['token']] and its siblings,
    [TypeError] from a value of the wrong type or from keyword arguments
    that cannot be bound, [JSONDecodeError] from [response.json()] on a
    body that is not JSON. *)
Inductive exn : Type :=
| ValueError (msg : string)
| KeyError (key : string)
| TypeError (msg : string)
| JSONDecodeError (msg : string).

(** [type(e)]: what an [except] clause discriminates on. *)
Inductive exn_class : Type :=
| ValueError_cls
| KeyError_cls
| TypeError_cls
| JSONDecodeError_cls.

Definition class_of (e : exn) : exn_class :=
  match e with
  | ValueError _ => ValueError_cls
  | KeyError _ => KeyError_cls
  | TypeError _ => TypeError_cls
  | JSONDecodeError _ => JSONDecodeError_cls
  end.

Definition message_of (e : exn) : string :=
  match e with
  | ValueError m => m
  | KeyError k => k
  | TypeError m => m
  | JSONDecodeError m => m
  end.

(** The values the code handles: what [response.json()] can hold, what the
    session attributes can therefore hold, and what a caller passes as
    positional and keyword arguments.  A float is kept as its rendering;
    the keys of a dictionary are strings. *)
Inductive pyobj : Type :=
| PyNone
| PyBool (b : bool)
| PyInt (z : Z)
| PyFloat (repr : string)
| PyStr (s : string)
| PyList (l : list pyobj)
| PyDict (d : gmap string pyobj).

Definition type_name (o : pyobj) : string :=
  match o with
  | PyNone => "NoneType"
  | PyBool _ => "bool"
  | PyInt _ => "int"
  | PyFloat _ => "float"
  | PyStr _ => "str"
  | PyList _ => "list"
  | PyDict _ => "dict"
  end.

(** [data[key]] for a string [key]: the value, or the exception. *)
Definition subscript (data : pyobj) (key : string) : exn + pyobj :=
  match data with
  | PyDict d =>
      match d !! key with
      | Some v => inr v
      | None => inl (KeyError key)
      end
  | PyList _ =>
      inl (TypeError "list indices must be integers or slices, not str")
  | PyStr _ => inl (TypeError "string indices must be integers, not 'str'")
  | _ => inl (TypeError ("'" +:+ type_name data +:+
                         "' object is not subscriptable"))
  end.

(** [o[key] = v] for a string [key]: the object after the assignment, or
    the exception.  Only a dictionary takes it. *)
Definition assign_item (o : pyobj) (key : string) (v : pyobj)
  : exn + pyobj :=
  match o with
  | PyDict d => inr (PyDict (<[key := v]> d))
  | PyList _ =>
      inl (TypeError "list indices must be integers or slices, not str")
  | _ => inl (TypeError ("'" +:+ type_name o +:+
                         "' object does not support item assignment"))
  end.

(** ** The collaborators *)

(** What [requests] hands back: [response.status_code], and what
    [response.json()] does: return the decoded body, whatever JSON value
    it is, or raise. *)
Record Response : Type := mkResponse {
  status_code : Z;
  json : exn + pyobj
}.

(** One call to [requests].  The class uses two entry points:
    [requests.post(url, headers=..., json=...)] in [_login] and [_refresh]
    (where [_refresh] passes no [json]), and
    [requests.request(method, *args, **kwargs)] in [_request]. *)
Inductive Call : Type :=
| requests_post (url : string) (headers : gmap string pyobj)
                (body : option (gmap string pyobj))
| requests_request (method : string) (args : list pyobj)
                   (kwargs : gmap string pyobj).

(** A point in time and a duration, both in microseconds, the resolution of
    [datetime] and [timedelta]. *)
Abbreviation datetime := Z (only parsing).
Abbreviation timedelta := Z (only parsing).

Definition timedelta_seconds (s : Z) : timedelta := s * 1000000.

(** The environment.
    - [strptime s fmt] is [datetime.strptime(s, fmt)]: a point in time, or
      the exception it raises;
    - [transport past c] is the response to the call [c] when the calls
      [past] were made before it;
    - [utcnow n] is what the clock shows the [n]-th time it is read;
    - [str_container o] is [str(o)] for a list or a dictionary, whose
      rendering of the items the model leaves to the interpreter.
    [requests] is taken to answer every call, so a connection that fails is
    outside the model. *)
Class Env : Type := mkEnv {
  strptime : string -> string -> exn + datetime;
  transport : list Call -> Call -> Response;
  utcnow : nat -> datetime;
  str_container : pyobj -> string
}.

(** [f'{v}']: [str(v)]. *)
Definition format {E : Env} (v : pyobj) : string :=
  match v with
  | PyNone => "None"
  | PyBool true => "True"
  | PyBool false => "False"
  | PyInt z => pretty z
  | PyFloat repr => repr
  | PyStr s => s
  | PyList _ | PyDict _ => str_container v
  end.

(** ** State and monad *)

(** The attributes of an instance, as [__init__] declares them.  The four
    session attributes hold [None] or whatever the endpoints sent. *)
Record Attrs : Type := mkAttrs {
  email : string;
  api_key : string;
  token : pyobj;
  expires : pyobj;
  refresh_token : pyobj;
  refresh_expires : pyobj
}.

Record State : Type := mkState {
  this : Attrs;
  log : list Call;
  ticks : nat
}.

Inductive Outcome (A : Type) : Type :=
| Ret (a : A)
| Raise (e : exn).
Arguments Ret {A} a.
Arguments Raise {A} e.

(** A computation returns or raises, and in both cases leaves a state: what
    was assigned before an exception stays assigned. *)
Definition M (A : Type) : Type := State -> Outcome A * State.

Definition ret {A} (a : A) : M A := fun st => (Ret a, st).

Definition raise {A} (e : exn) : M A := fun st => (Raise e, st).

Definition bind {A B} (c : M A) (k : A -> M B) : M B :=
  fun st =>
    match c st with
    | (Ret a, st') => k a st'
    | (Raise e, st') => (Raise e, st')
    end.

Notation "x <- c ;; k" := (bind c (fun x => k))
  (at level 100, c at next level, right associativity).
Notation "c ;;; k" := (bind c (fun _ => k))
  (at level 100, right associativity).

(** An operation that returns or raises without touching the state. *)
Definition lift {A} (r : exn + A) : M A :=
  match r with
  | inl e => raise e
  | inr a => ret a
  end.

Definition get_self : M Attrs := fun st => (Ret (this st), st).

Definition update_self (f : Attrs -> Attrs) : M unit :=
  fun st => (Ret tt, mkState (f (this st)) (log st) (ticks st)).

Definition with_token (v : pyobj) (a : Attrs) : Attrs :=
  mkAttrs (email a) (api_key a) v (expires a) (refresh_token a)
          (refresh_expires a).

Definition with_expires (v : pyobj) (a : Attrs) : Attrs :=
  mkAttrs (email a) (api_key a) (token a) v (refresh_token a)
          (refresh_expires a).

Definition with_refresh_token (v : pyobj) (a : Attrs) : Attrs :=
  mkAttrs (email a) (api_key a) (token a) (expires a) v (refresh_expires a).

Definition with_refresh_expires (v : pyobj) (a : Attrs) : Attrs :=
  mkAttrs (email a) (api_key a) (token a) (expires a) (refresh_token a) v.

(** [data[key]] and [o[key] = v] as computations. *)
Definition getitem (data : pyobj) (key : string) : M pyobj :=
  lift (subscript data key).

Definition setitem (o : pyobj) (key : string) (v : pyobj) : M pyobj :=
  lift (assign_item o key v).

(** [response.json()]. *)
Definition response_json (response : Response) : M pyobj :=
  lift (json response).

(** [urljoin(base, url)] for a base without a path and a relative
    reference, the only use the class makes of it. *)
Definition urljoin (base url : string) : string := base +:+ "/" +:+ url.

(** A call [f(..., **kwargs)] in which the parameter [param] of [f] is
    already bound by position: a keyword of that name is a second value
    for it, and the call raises before the body of [f] runs. *)
Definition bound_by_position (callee param : string)
    (kwargs : gmap string pyobj) : M unit :=
  match kwargs !! param with
  | Some _ =>
      raise (TypeError (callee +:+ "() got multiple values for argument '"
                        +:+ param +:+ "'"))
  | None => ret tt
  end.

Section Collaborators.
Context {E : Env}.

(** Issue a call: the response is the environment's, the call is logged. *)
Definition perform (c : Call) : M Response :=
  fun st => (Ret (transport (log st) c),
             mkState (this st) (log st ++ [c]) (ticks st)).

Definition datetime_utcnow : M datetime :=
  fun st => (Ret (utcnow (ticks st)),
             mkState (this st) (log st) (S (ticks st))).

(** [datetime.strptime(v, fmt)]: a first argument that is not a string is
    a [TypeError]. *)
Definition strptime_of (v : pyobj) (fmt : string) : exn + datetime :=
  match v with
  | PyStr s => strptime s fmt
  | PyNone =>
      inl (TypeError "strptime() argument 1 must be str, not None")
  | _ =>
      inl (TypeError ("strptime() argument 1 must be str, not "
                      +:+ type_name v))
  end.

Definition datetime_strptime (v : pyobj) (fmt : string) : M datetime :=
  lift (strptime_of v fmt).
End Collaborators.

(** ** The class *)

Module PentaApi.
Section Methods.
Context {E : Env}.

Definition DOMAIN : string := "https://api.pentadatainc.com".
Definition LOGIN : string := "subscribers/login".
Definition REFRESH : string := "subscribers/refresh".
Definition DELTA : Z := 5.

Definition FORMAT : string := "%Y%m%d%H%M%S".

(** [_login(self)]. *)
Definition _login : M unit :=
  let headers : gmap string pyobj :=
    {[ "Content-type" := PyStr "application/json" ]} in
  self <- get_self ;;
  let payload : gmap string pyobj :=
    <[ "api_key" := PyStr (api_key self) ]>
      {[ "email" := PyStr (email self) ]} in
  let url := urljoin DOMAIN LOGIN in
  response <- perform (requests_post url headers (Some payload)) ;;
  if status_code response =? 200 then
    data <- response_json response ;;
    v <- getitem data "token" ;;
    update_self (with_token v) ;;;
    v <- getitem data "expires" ;;
    update_self (with_expires v) ;;;
    v <- getitem data "refresh_token" ;;
    update_self (with_refresh_token v) ;;;
    v <- getitem data "refresh_expires" ;;
    update_self (with_refresh_expires v)
  else
    raise (ValueError "Credentials not valid").

(** [__init__(self, email, api_key)]: the six assignments, then [_login]. *)
Definition __init__ (email api_key : string) : M unit :=
  update_self
    (fun _ => mkAttrs email api_key PyNone PyNone PyNone PyNone) ;;;
  _login.

(** [_is_expired(self)]. *)
Definition _is_expired : M bool :=
  self <- get_self ;;
  expiration <- datetime_strptime (expires self) FORMAT ;;
  now <- datetime_utcnow ;;
  let delta := timedelta_seconds DELTA in
  if expiration <? now then ret true
  else ret (expiration - now <? delta).

(** [_is_refresh_expired(self)]. *)
Definition _is_refresh_expired : M bool :=
  self <- get_self ;;
  expiration <- datetime_strptime (refresh_expires self) FORMAT ;;
  now <- datetime_utcnow ;;
  let delta := timedelta_seconds DELTA in
  if expiration <? now then ret true
  else ret (expiration - now <? delta).

(** [_refresh(self)]. *)
Definition _refresh : M unit :=
  refresh_expired <- _is_refresh_expired ;;
  if refresh_expired then
    _login
  else
    let url := urljoin DOMAIN REFRESH in
    self <- get_self ;;
    let tok := refresh_token self in
    let headers : gmap string pyobj :=
      {[ "Authorization" := PyStr ("Bearer " +:+ format tok) ]} in
    response <- perform (requests_post url headers None) ;;
    if status_code response =? 200 then
      data <- response_json response ;;
      v <- getitem data "token" ;;
      update_self (with_token v) ;;;
      v <- getitem data "expires" ;;
      update_self (with_expires v)
    else
      raise (ValueError "Cannot refresh JWT").

(** [_request(self, method, *args, **kwargs)], once its arguments are
    bound. *)
Definition _request (method : string) (args : list pyobj)
    (kwargs : gmap string pyobj) : M Response :=
  expired <- _is_expired ;;
  (if expired then _refresh else ret tt) ;;;
  kwargs <-
    match kwargs !! "headers" with
    | Some h =>
        self <- get_self ;;
        h <- setitem h "Authorization"
               (PyStr ("Bearer " +:+ format (token self))) ;;
        h <- setitem h "Content-type" (PyStr "application/json") ;;
        ret (<[ "headers" := h ]> kwargs)
    | None =>
        self <- get_self ;;
        let h := PyDict
          {[ "Authorization" :=
               PyStr ("Bearer " +:+ format (token self)) ]} in
        h <- setitem h "Content-type" (PyStr "application/json") ;;
        ret (<[ "headers" := h ]> kwargs)
    end ;;
  perform (requests_request method args kwargs).

(** The four public methods, [def get(self, *args, **kwargs): return
    self._request('GET', *args, **kwargs)] and its siblings.  A keyword
    [self] cannot be bound when the method is called, and a keyword
    [method] cannot be bound when [_request] is: both are a [TypeError]
    before anything else happens. *)
Definition get (args : list pyobj) (kwargs : gmap string pyobj)
  : M Response :=
  bound_by_position "PentaApi.get" "self" kwargs ;;;
  bound_by_position "PentaApi._request" "method" kwargs ;;;
  _request "GET" args kwargs.

Definition post (args : list pyobj) (kwargs : gmap string pyobj)
  : M Response :=
  bound_by_position "PentaApi.post" "self" kwargs ;;;
  bound_by_position "PentaApi._request" "method" kwargs ;;;
  _request "POST" args kwargs.

Definition put (args : list pyobj) (kwargs : gmap string pyobj)
  : M Response :=
  bound_by_position "PentaApi.put" "self" kwargs ;;;
  bound_by_position "PentaApi._request" "method" kwargs ;;;
  _request "PUT" args kwargs.

Definition delete (args : list pyobj) (kwargs : gmap string pyobj)
  : M Response :=
  bound_by_position "PentaApi.delete" "self" kwargs ;;;
  bound_by_position "PentaApi._request" "method" kwargs ;;;
  _request "DELETE" args kwargs.
End Methods.
End PentaApi.

(** ** The four verbs *)

Inductive Verb : Type := GET | POST | PUT | DELETE.

Definition verb_method (v : Verb) : string :=
  match v with
  | GET => "GET"
  | POST => "POST"
  | PUT => "PUT"
  | DELETE => "DELETE"
  end.

Definition verb_call {E : Env} (v : Verb)
  : list pyobj -> gmap string pyobj -> M Response :=
  match v with
  | GET => PentaApi.get
  | POST => PentaApi.post
  | PUT => PentaApi.put
  | DELETE => PentaApi.delete
  end.

(** ** Vocabulary of the statements *)

(** Keyword arguments a verb can be called with: no keyword [self] and no
    keyword [method], the two names the verb and [_request] bind by
    position. *)
Definition accepted (kwargs : gmap string pyobj) : Prop :=
  kwargs !! "self" = None /\ kwargs !! "method" = None.

Definition LOGIN_URL : string := urljoin PentaApi.DOMAIN PentaApi.LOGIN.
Definition REFRESH_URL : string := urljoin PentaApi.DOMAIN PentaApi.REFRESH.

(** The call [_login] makes for the credentials of [a]. *)
Definition login_call (a : Attrs) : Call :=
  requests_post LOGIN_URL
    {[ "Content-type" := PyStr "application/json" ]}
    (Some (<[ "api_key" := PyStr (api_key a) ]>
             {[ "email" := PyStr (email a) ]})).

(** The call [_refresh] makes with the refresh token of [a]. *)
Definition refresh_call {E : Env} (a : Attrs) : Call :=
  requests_post REFRESH_URL
    {[ "Authorization" := PyStr ("Bearer " +:+ format (refresh_token a)) ]}
    None.

(** The headers the caller supplied: none, a dictionary, or an object that
    is not a dictionary (for which the result is [None]). *)
Definition caller_headers (kwargs : gmap string pyobj)
  : option (gmap string pyobj) :=
  match kwargs !! "headers" with
  | None => Some ∅
  | Some (PyDict h) => Some h
  | Some _ => None
  end.

(** The caller's headers with the two keys the class assigns. *)
Definition outgoing_headers {E : Env} (tok : pyobj)
    (h : gmap string pyobj) : gmap string pyobj :=
  <[ "Content-type" := PyStr "application/json" ]>
    (<[ "Authorization" := PyStr ("Bearer " +:+ format tok) ]> h).

Definition outgoing_call {E : Env} (v : Verb) (args : list pyobj)
    (kwargs : gmap string pyobj) (tok : pyobj)
    (h : gmap string pyobj) : Call :=
  requests_request (verb_method v) args
    (<[ "headers" := PyDict (outgoing_headers tok h) ]> kwargs).

(** The comparison both expiry checks end with. *)
Definition expired_at (expiration now : datetime) : bool :=
  let delta := timedelta_seconds PentaApi.DELTA in
  if expiration <? now then true
  else expiration - now <? delta.

(** The [if 'headers' in kwargs: ... else: ...] of [_request]: the keyword
    arguments with the two headers assigned. *)
Definition set_headers {E : Env} (kwargs : gmap string pyobj)
  : M (gmap string pyobj) :=
  match kwargs !! "headers" with
  | Some h =>
      self <- get_self ;;
      h <- setitem h "Authorization"
             (PyStr ("Bearer " +:+ format (token self))) ;;
      h <- setitem h "Content-type" (PyStr "application/json") ;;
      ret (<[ "headers" := h ]> kwargs)
  | None =>
      self <- get_self ;;
      let h := PyDict
        {[ "Authorization" :=
             PyStr ("Bearer " +:+ format (token self)) ]} in
      h <- setitem h "Content-type" (PyStr "application/json") ;;
      ret (<[ "headers" := h ]> kwargs)
  end.

(** What [_request] does once the token has been seen to: assign the
    headers and hand the call to [requests]. *)
Definition send {E : Env} (method : string) (args : list pyobj)
    (kwargs : gmap string pyobj) : M Response :=
  kwargs <- set_headers kwargs ;;
  perform (requests_request method args kwargs).

(** Whether [c] is a [requests.post] to [url], the entry point [_login] and
    [_refresh] use. *)
Definition posts_to (url : string) (c : Call) : bool :=
  match c with
  | requests_post u _ _ => String.eqb u url
  | requests_request _ _ _ => false
  end.

(** The two attributes [__init__] takes from its arguments. *)
Definition credentials (st : State) : string * string :=
  (email (this st), api_key (this st)).

Definition tick (st : State) : State :=
  mkState (this st) (log st) (S (ticks st)).

Definition logged (c : Call) (st : State) : State :=
  mkState (this st) (log st ++ [c]) (ticks st).

Definition blank (email api_key : string) : Attrs :=
  mkAttrs email api_key PyNone PyNone PyNone PyNone.

(** The operations that can follow the construction of an instance. *)
Inductive Op : Type :=
| op_login
| op_refresh
| op_is_expired
| op_is_refresh_expired
| op_verb (v : Verb) (args : list pyobj) (kwargs : gmap string pyobj).

Definition exec {E : Env} (o : Op) (st : State) : State :=
  match o with
  | op_login => snd (PentaApi._login st)
  | op_refresh => snd (PentaApi._refresh st)
  | op_is_expired => snd (PentaApi._is_expired st)
  | op_is_refresh_expired => snd (PentaApi._is_refresh_expired st)
  | op_verb v args kwargs => snd (verb_call v args kwargs st)
  end.

Definition exec_all {E : Env} (ops : list Op) (st : State) : State :=
  fold_left (fun st o => exec o st) ops st.

(** The first two statements of [_request]: check the access token and
    renew it when the check says so. *)
Definition renew {E : Env} : M unit :=
  expired <- PentaApi._is_expired ;;
  if expired then PentaApi._refresh else ret tt.

Definition is_none (v : pyobj) : bool :=
  match v with
  | PyNone => true
  | _ => false
  end.

(** None of the four session attributes is [None]. *)
Definition populated (a : Attrs) : bool :=
  negb (is_none (token a)) && negb (is_none (expires a))
  && negb (is_none (refresh_token a)) && negb (is_none (refresh_expires a)).

(** The endpoints never answer [requests.post] with an object that holds a
    [null]. *)
Definition never_null {E : Env} : Prop :=
  forall past url headers body d k,
    json (transport past (requests_post url headers body)) = inr (PyDict d) ->
    d !! k <> Some PyNone.

(** ** A concrete environment

    Used to run the methods on examples: a parser for the fixed-width
    timestamps the API sends, a server that answers the two endpoints with
    chosen status codes, and a clock that stands still. *)

Definition digit_of (c : Ascii.ascii) : option Z :=
  let n := Z.of_N (Ascii.N_of_ascii c) in
  if (48 <=? n) && (n <=? 57) then Some (n - 48) else None.

Fixpoint number_of (acc : Z) (s : string) : option Z :=
  match s with
  | EmptyString => Some acc
  | String c s' =>
      match digit_of c with
      | Some d => number_of (10 * acc + d) s'
      | None => None
      end
  end.

Definition is_leap (y : Z) : bool :=
  ((y mod 4 =? 0) && negb (y mod 100 =? 0)) || (y mod 400 =? 0).

Definition days_in_month (y m : Z) : Z :=
  if m =? 2 then (if is_leap y then 29 else 28)
  else if (m =? 4) || (m =? 6) || (m =? 9) || (m =? 11) then 30
  else 31.

(** Days from 1970-01-01 to the given date of the proleptic Gregorian
    calendar. *)
Definition days_from_civil (y m d : Z) : Z :=
  let y' := if m <=? 2 then y - 1 else y in
  let era := y' / 400 in
  let yoe := y' - era * 400 in
  let mp := if 2 <? m then m - 3 else m + 9 in
  let doy := (153 * mp + 2) / 5 + d - 1 in
  let doe := yoe * 365 + yoe / 4 - yoe / 100 + doy in
  era * 146097 + doe - 719468.

Definition field (from len : nat) (s : string) : option Z :=
  number_of 0 (String.substring from len s).

(** A parser for the timestamps of the API: fourteen decimal digits,
    [YYYYMMDDHHMMSS], read as a date of the Gregorian calendar. *)
Definition strptime_fixed (s fmt : string) : exn + datetime :=
  let bad := inl (ValueError ("time data '" +:+ s +:+
                              "' does not match format '" +:+ fmt +:+ "'")) in
  if negb (String.eqb fmt PentaApi.FORMAT) then bad
  else if negb (Nat.eqb (String.length s) 14) then bad
  else
    match field 0 4 s, field 4 2 s, field 6 2 s,
          field 8 2 s, field 10 2 s, field 12 2 s with
    | Some y, Some m, Some d, Some hh, Some mm, Some ss =>
        if (1 <=? y) && (1 <=? m) && (m <=? 12) && (1 <=? d)
           && (d <=? days_in_month y m) && (hh <=? 23) && (mm <=? 59)
           && (ss <=? 59)
        then inr ((((days_from_civil y m d * 24 + hh) * 60 + mm) * 60 + ss)
                  * 1000000)
        else bad
    | _, _, _, _, _, _ => bad
    end.

Definition login_fields : gmap string pyobj :=
  <[ "refresh_expires" := PyStr "20300101000000" ]>
  (<[ "refresh_token" := PyStr "R1" ]>
  (<[ "expires" := PyStr "20300101000000" ]>
     {[ "token" := PyStr "T1" ]})).

Definition login_body : pyobj := PyDict login_fields.

Definition refresh_fields : gmap string pyobj :=
  <[ "expires" := PyStr "20300102000000" ]> {[ "token" := PyStr "T2" ]}.

Definition refresh_body : pyobj := PyDict refresh_fields.

Definition not_found : Response :=
  mkResponse 404 (inr (PyDict {[ "detail" := PyStr "not found" ]})).

(** A server that answers the login endpoint with [login_status], the
    refresh endpoint with [refresh_status] and everything else with 404. *)
Definition mock_transport (login_status refresh_status : Z)
    (past : list Call) (c : Call) : Response :=
  match c with
  | requests_post url _ _ =>
      if String.eqb url LOGIN_URL
      then mkResponse login_status (inr login_body)
      else if String.eqb url REFRESH_URL
           then mkResponse refresh_status (inr refresh_body)
           else not_found
  | requests_request _ _ _ => not_found
  end.

(** A rendering of containers that shows the type only. *)
Definition str_opaque (o : pyobj) : string :=
  "<" +:+ type_name o +:+ ">".

Definition mock_env (now : datetime) (login_status refresh_status : Z)
  : Env :=
  mkEnv strptime_fixed (mock_transport login_status refresh_status)
        (fun _ => now) str_opaque.

(** The clock reading used in the examples: 2029-01-01 00:00:00. *)
Definition t_2029 : datetime :=
  match strptime_fixed "20290101000000" PentaApi.FORMAT with
  | inr t => t
  | inl _ => 0
  end.

Definition session (tok exp rtok rexp : string) : State :=
  mkState (mkAttrs "a@b.com" "k" (PyStr tok) (PyStr exp) (PyStr rtok)
                   (PyStr rexp))
          [] 0.

(** Both endpoints answer 200; the clock shows 2029-01-01 00:00:00. *)
Definition env_up : Env := mock_env t_2029 200 200.

(** The login endpoint answers 401 and the refresh endpoint 500. *)
Definition env_down : Env := mock_env t_2029 401 500.

(** The state [__init__] starts from, and four sessions: everything valid
    until 2030; the access token expired in 2028; both tokens expired in
    2028; only the refresh token expired in 2028. *)
Definition start : State := mkState (blank "" "") [] 0.

Definition st_fresh : State :=
  session "T1" "20300101000000" "R1" "20300101000000".

Definition st_stale : State :=
  session "T1" "20280101000000" "R1" "20300101000000".

Definition st_lapsed : State :=
  session "T1" "20280101000000" "R1" "20280601000000".

Definition st_refresh_lapsed : State :=
  session "T1" "20300101000000" "R1" "20280101000000".

(** Keyword arguments with two headers of the caller's, one of them under
    a key the class assigns. *)
Definition h_caller : gmap string pyobj :=
  <[ "Authorization" := PyStr "Basic dXNlcg==" ]>
    {[ "Accept" := PyStr "text/plain" ]}.

Definition kw_caller : gmap string pyobj :=
  <[ "timeout" := PyInt 30 ]> {[ "headers" := PyDict h_caller ]}.

(** A session whose [expires] is not a timestamp. *)
Definition st_garbled : State :=
  session "T1" "tomorrow" "R1" "20300101000000".

(** A session whose [refresh_expires] is not a timestamp and whose access
    token expired in 2028. *)
Definition st_refresh_garbled : State :=
  session "T1" "20280101000000" "R1" "tomorrow".

(** A server whose answers to both endpoints carry [token] only. *)
Definition env_token_only : Env :=
  mkEnv strptime_fixed
        (fun _ _ => mkResponse 200 (inr (PyDict {[ "token" := PyStr "T9" ]})))
        (fun _ => t_2029) str_opaque.

(** A server that answers every call with 200 and the login fields, the
    token among them [null]. *)
Definition env_null_token : Env :=
  mkEnv strptime_fixed
        (fun _ _ =>
           mkResponse 200 (inr (PyDict (<[ "token" := PyNone ]> login_fields))))
        (fun _ => t_2029) str_opaque.

(** A server whose answers cannot be decoded. *)
Definition env_not_json : Env :=
  mkEnv strptime_fixed
        (fun _ _ =>
           mkResponse 200
             (inl (JSONDecodeError "Expecting value: line 1 column 1 (char 0)")))
        (fun _ => t_2029) str_opaque.

(** Keyword arguments with a keyword [method]. *)
Definition kw_method : gmap string pyobj := {[ "method" := PyStr "POST" ]}.

(** The clock shows 2029-01-01 at the first reading and 2029-01-02 from
    then on. *)
Definition env_clock_runs : Env :=
  mkEnv strptime_fixed (mock_transport 200 200)
        (fun n => match n with
                  | O => t_2029
                  | S _ => t_2029 + timedelta_seconds 86400
                  end)
        str_opaque.

(** A session whose access token expires three seconds after the first
    reading of the clock. *)
Definition st_closing : State :=
  session "T1" "20290101000003" "R1" "20300101000000".

(** * Properties *)

(** ** Equations of the methods *)

Ltac run_monad :=
  unfold bind, ret, raise, lift, get_self, update_self, perform, getitem,
    response_json, datetime_utcnow, datetime_strptime; simpl.

Section Equations.
Context {E : Env}.

Lemma is_expired_eq (st : State) :
  PentaApi._is_expired st =
  match strptime_of (expires (this st)) PentaApi.FORMAT with
  | inl e => (Raise e, st)
  | inr t => (Ret (expired_at t (utcnow (ticks st))), tick st)
  end.
Proof.
  unfold PentaApi._is_expired, expired_at. run_monad.
  destruct (strptime_of (expires (this st)) PentaApi.FORMAT) as [e|t];
    simpl; [reflexivity|].
  destruct (t <? utcnow (ticks st)); reflexivity.
Qed.

Lemma is_refresh_expired_eq (st : State) :
  PentaApi._is_refresh_expired st =
  match strptime_of (refresh_expires (this st)) PentaApi.FORMAT with
  | inl e => (Raise e, st)
  | inr t => (Ret (expired_at t (utcnow (ticks st))), tick st)
  end.
Proof.
  unfold PentaApi._is_refresh_expired, expired_at. run_monad.
  destruct (strptime_of (refresh_expires (this st)) PentaApi.FORMAT)
    as [e|t]; simpl; [reflexivity|].
  destruct (t <? utcnow (ticks st)); reflexivity.
Qed.

(** A check that returns has read the clock once and changed nothing
    else. *)
Lemma is_expired_ret (st : State) (b : bool) :
  fst (PentaApi._is_expired st) = Ret b ->
  PentaApi._is_expired st = (Ret b, tick st).
Proof.
  rewrite is_expired_eq.
  destruct (strptime_of _ _); simpl; [discriminate|].
  intros H. injection H as ->. reflexivity.
Qed.

Lemma is_refresh_expired_ret (st : State) (b : bool) :
  fst (PentaApi._is_refresh_expired st) = Ret b ->
  PentaApi._is_refresh_expired st = (Ret b, tick st).
Proof.
  rewrite is_refresh_expired_eq.
  destruct (strptime_of _ _); simpl; [discriminate|].
  intros H. injection H as ->. reflexivity.
Qed.

Lemma is_expired_raise (st : State) (e : exn) :
  fst (PentaApi._is_expired st) = Raise e ->
  PentaApi._is_expired st = (Raise e, st).
Proof.
  rewrite is_expired_eq.
  destruct (strptime_of _ _); simpl; [|discriminate].
  intros [= ->]. reflexivity.
Qed.

Lemma is_refresh_expired_raise (st : State) (e : exn) :
  fst (PentaApi._is_refresh_expired st) = Raise e ->
  PentaApi._is_refresh_expired st = (Raise e, st).
Proof.
  rewrite is_refresh_expired_eq.
  destruct (strptime_of _ _); simpl; [|discriminate].
  intros [= ->]. reflexivity.
Qed.

(** A check never touches the attributes or the log. *)
Lemma is_expired_frame (st : State) :
  this (snd (PentaApi._is_expired st)) = this st /\
  log (snd (PentaApi._is_expired st)) = log st.
Proof.
  rewrite is_expired_eq. destruct (strptime_of _ _); simpl; auto.
Qed.

Lemma is_refresh_expired_frame (st : State) :
  this (snd (PentaApi._is_refresh_expired st)) = this st /\
  log (snd (PentaApi._is_refresh_expired st)) = log st.
Proof.
  rewrite is_refresh_expired_eq. destruct (strptime_of _ _); simpl; auto.
Qed.

Lemma expired_at_true (expiration now : Z) :
  expired_at expiration now = true <->
  expiration < now \/ expiration - now < 5 * 1000000.
Proof.
  unfold expired_at, timedelta_seconds, PentaApi.DELTA.
  destruct (Z.ltb_spec expiration now) as [Hlt|Hge].
  - split; auto.
  - rewrite Z.ltb_lt. split; [auto|]. intros [H|H]; lia.
Qed.

(** *** [_login] *)

(** [_login], outcome by outcome. *)
Lemma login_eq (st : State) :
  PentaApi._login st =
  let response := transport (log st) (login_call (this st)) in
  let called a := mkState a (log st ++ [login_call (this st)]) (ticks st) in
  if status_code response =? 200 then
    match json response with
    | inl x => (Raise x, called (this st))
    | inr data =>
      match subscript data "token" with
      | inl x => (Raise x, called (this st))
      | inr t =>
        match subscript data "expires" with
        | inl x => (Raise x, called (with_token t (this st)))
        | inr e =>
          match subscript data "refresh_token" with
          | inl x =>
              (Raise x, called (with_expires e (with_token t (this st))))
          | inr rt =>
            match subscript data "refresh_expires" with
            | inl x =>
                (Raise x,
                 called (with_refresh_token rt
                           (with_expires e (with_token t (this st)))))
            | inr re =>
                (Ret tt,
                 called (with_refresh_expires re
                           (with_refresh_token rt
                              (with_expires e (with_token t (this st))))))
            end
          end
        end
      end
    end
  else (Raise (ValueError "Credentials not valid"), called (this st)).
Proof.
  unfold PentaApi._login. run_monad.
  fold LOGIN_URL. fold (login_call (this st)).
  set (response := transport (log st) (login_call (this st))).
  destruct (status_code response =? 200); simpl; [|reflexivity].
  destruct (json response) as [x|data]; simpl; [reflexivity|].
  destruct (subscript data "token"); simpl; [reflexivity|].
  destruct (subscript data "expires"); simpl; [reflexivity|].
  destruct (subscript data "refresh_token"); simpl; [reflexivity|].
  destruct (subscript data "refresh_expires"); reflexivity.
Qed.

Lemma login_failure (st : State) :
  status_code (transport (log st) (login_call (this st))) <> 200 ->
  PentaApi._login st =
  (Raise (ValueError "Credentials not valid"),
   logged (login_call (this st)) st).
Proof.
  intros Hs. apply Z.eqb_neq in Hs.
  rewrite login_eq. cbv zeta. rewrite Hs. reflexivity.
Qed.

Lemma login_success (st : State) (d : gmap string pyobj)
    (t e rt re : pyobj) :
  let response := transport (log st) (login_call (this st)) in
  status_code response = 200 ->
  json response = inr (PyDict d) ->
  d !! "token" = Some t ->
  d !! "expires" = Some e ->
  d !! "refresh_token" = Some rt ->
  d !! "refresh_expires" = Some re ->
  PentaApi._login st =
  (Ret tt,
   mkState (mkAttrs (email (this st)) (api_key (this st)) t e rt re)
           (log st ++ [login_call (this st)]) (ticks st)).
Proof.
  intros response Hs Hd Ht He Hrt Hre. apply Z.eqb_eq in Hs.
  rewrite login_eq. cbv zeta. fold response.
  rewrite Hs, Hd. simpl. rewrite Ht, He, Hrt, Hre. reflexivity.
Qed.

(** Whatever the server answers, [_login] makes its one call, reads no
    clock and keeps the credentials. *)
Lemma login_frame (st : State) :
  email (this (snd (PentaApi._login st))) = email (this st) /\
  api_key (this (snd (PentaApi._login st))) = api_key (this st) /\
  log (snd (PentaApi._login st)) = log st ++ [login_call (this st)].
Proof.
  rewrite login_eq. cbv zeta.
  set (response := transport (log st) (login_call (this st))).
  destruct (status_code response =? 200); simpl; [|auto].
  destruct (json response) as [x|data]; simpl; [auto|].
  destruct (subscript data "token"); simpl; [auto|].
  destruct (subscript data "expires"); simpl; [auto|].
  destruct (subscript data "refresh_token"); simpl; [auto|].
  destruct (subscript data "refresh_expires"); simpl; auto.
Qed.

Lemma login_ticks (st : State) :
  ticks (snd (PentaApi._login st)) = ticks st.
Proof.
  rewrite login_eq. cbv zeta.
  set (response := transport (log st) (login_call (this st))).
  destruct (status_code response =? 200); simpl; [|reflexivity].
  destruct (json response) as [x|data]; simpl; [reflexivity|].
  destruct (subscript data "token"); simpl; [reflexivity|].
  destruct (subscript data "expires"); simpl; [reflexivity|].
  destruct (subscript data "refresh_token"); simpl; [reflexivity|].
  destruct (subscript data "refresh_expires"); reflexivity.
Qed.

(** *** [_refresh] *)

Lemma refresh_relogin (st : State) :
  fst (PentaApi._is_refresh_expired st) = Ret true ->
  PentaApi._refresh st = PentaApi._login (tick st).
Proof.
  intros H. apply is_refresh_expired_ret in H.
  unfold PentaApi._refresh, bind at 1. rewrite H. reflexivity.
Qed.

Lemma refresh_raise (st : State) (e : exn) :
  fst (PentaApi._is_refresh_expired st) = Raise e ->
  PentaApi._refresh st = (Raise e, st).
Proof.
  intros H. apply is_refresh_expired_raise in H.
  unfold PentaApi._refresh, bind at 1. rewrite H. reflexivity.
Qed.

(** The path through the refresh endpoint, outcome by outcome. *)
Lemma refresh_endpoint_eq (st : State) :
  fst (PentaApi._is_refresh_expired st) = Ret false ->
  PentaApi._refresh st =
  let response := transport (log st) (refresh_call (this st)) in
  let called a :=
    mkState a (log st ++ [refresh_call (this st)]) (S (ticks st)) in
  if status_code response =? 200 then
    match json response with
    | inl x => (Raise x, called (this st))
    | inr data =>
      match subscript data "token" with
      | inl x => (Raise x, called (this st))
      | inr t =>
          match subscript data "expires" with
          | inl x => (Raise x, called (with_token t (this st)))
          | inr e =>
              (Ret tt, called (with_expires e (with_token t (this st))))
          end
      end
    end
  else (Raise (ValueError "Cannot refresh JWT"), called (this st)).
Proof.
  intros H. apply is_refresh_expired_ret in H.
  unfold PentaApi._refresh, bind at 1. rewrite H. run_monad.
  fold REFRESH_URL. fold (refresh_call (this st)).
  set (response := transport (log st) (refresh_call (this st))).
  destruct (status_code response =? 200); simpl; [|reflexivity].
  destruct (json response) as [x|data]; simpl; [reflexivity|].
  destruct (subscript data "token"); simpl; [reflexivity|].
  destruct (subscript data "expires"); reflexivity.
Qed.

Lemma refresh_failure (st : State) :
  fst (PentaApi._is_refresh_expired st) = Ret false ->
  status_code (transport (log st) (refresh_call (this st))) <> 200 ->
  PentaApi._refresh st =
  (Raise (ValueError "Cannot refresh JWT"),
   logged (refresh_call (this st)) (tick st)).
Proof.
  intros H Hs. apply Z.eqb_neq in Hs.
  rewrite (refresh_endpoint_eq st H). simpl. rewrite Hs. reflexivity.
Qed.

Lemma refresh_success (st : State) (d : gmap string pyobj) (t e : pyobj) :
  let response := transport (log st) (refresh_call (this st)) in
  fst (PentaApi._is_refresh_expired st) = Ret false ->
  status_code response = 200 ->
  json response = inr (PyDict d) ->
  d !! "token" = Some t ->
  d !! "expires" = Some e ->
  PentaApi._refresh st =
  (Ret tt,
   mkState (with_expires e (with_token t (this st)))
           (log st ++ [refresh_call (this st)]) (S (ticks st))).
Proof.
  intros response H Hs Hd Ht He. apply Z.eqb_eq in Hs.
  rewrite (refresh_endpoint_eq st H). cbv zeta. fold response.
  rewrite Hs, Hd. simpl. rewrite Ht, He. reflexivity.
Qed.

(** On the path through the refresh endpoint, whatever the server
    answers, only [token] and [expires] can change, and one call is
    made. *)
Lemma refresh_endpoint_frame (st : State) :
  fst (PentaApi._is_refresh_expired st) = Ret false ->
  let st' := snd (PentaApi._refresh st) in
  email (this st') = email (this st) /\
  api_key (this st') = api_key (this st) /\
  refresh_token (this st') = refresh_token (this st) /\
  refresh_expires (this st') = refresh_expires (this st) /\
  log st' = log st ++ [refresh_call (this st)].
Proof.
  intros H st'. subst st'. rewrite (refresh_endpoint_eq st H). cbv zeta.
  set (response := transport (log st) (refresh_call (this st))).
  destruct (status_code response =? 200); simpl;
    [|repeat split; reflexivity].
  destruct (json response) as [x|data]; simpl;
    [repeat split; reflexivity|].
  destruct (subscript data "token"); simpl;
    [repeat split; reflexivity|].
  destruct (subscript data "expires"); simpl;
    repeat split; reflexivity.
Qed.

(** What [_refresh] adds to the log and to the clock reads. *)
Lemma refresh_shape (st : State) :
  let st' := snd (PentaApi._refresh st) in
  (log st' = log st \/
   log st' = log st ++ [login_call (this st)] \/
   log st' = log st ++ [refresh_call (this st)]) /\
  (ticks st <= ticks st' <= S (ticks st))%nat.
Proof.
  intros st'. subst st'.
  destruct (fst (PentaApi._is_refresh_expired st)) as [[|]|e] eqn:H.
  - rewrite (refresh_relogin st H).
    destruct (login_frame (tick st)) as (_ & _ & Hl).
    rewrite Hl, login_ticks. simpl. split; [auto | lia].
  - destruct (refresh_endpoint_frame st H) as (_ & _ & _ & _ & Hl).
    split; [auto|].
    rewrite (refresh_endpoint_eq st H). cbv zeta.
    set (response := transport (log st) _).
    destruct (status_code response =? 200); simpl; [|lia].
    destruct (json response) as [x|data]; simpl; [lia|].
    destruct (subscript data "token"); simpl; [lia|].
    destruct (subscript data "expires"); simpl; lia.
  - rewrite (refresh_raise st e H). simpl. split; [auto | lia].
Qed.

(** *** The headers *)

Lemma set_headers_eq (kwargs : gmap string pyobj) (h : gmap string pyobj)
    (st : State) :
  caller_headers kwargs = Some h ->
  set_headers kwargs st =
  (Ret (<[ "headers" := PyDict (outgoing_headers (token (this st)) h) ]>
          kwargs), st).
Proof.
  unfold caller_headers, set_headers, outgoing_headers.
  destruct (kwargs !! "headers") as [[| | | | | |d]|]; try discriminate;
    intros [= <-]; reflexivity.
Qed.

Lemma set_headers_not_dict (kwargs : gmap string pyobj) (st : State) :
  caller_headers kwargs = None ->
  exists msg, set_headers kwargs st = (Raise (TypeError msg), st).
Proof.
  unfold caller_headers, set_headers.
  destruct (kwargs !! "headers") as [[| | | | | |d]|]; try discriminate;
    intros _; eexists; reflexivity.
Qed.

Lemma set_headers_frame (kwargs : gmap string pyobj) (st : State) :
  snd (set_headers kwargs st) = st.
Proof.
  destruct (caller_headers kwargs) as [h|] eqn:Hh.
  - rewrite (set_headers_eq _ _ _ Hh). reflexivity.
  - destruct (set_headers_not_dict _ st Hh) as [msg ->]. reflexivity.
Qed.

Lemma send_eq (v : Verb) args kwargs h (st : State) :
  caller_headers kwargs = Some h ->
  let c := outgoing_call v args kwargs (token (this st)) h in
  send (verb_method v) args kwargs st =
  (Ret (transport (log st) c), logged c st).
Proof.
  intros Hh c. unfold send, bind.
  rewrite (set_headers_eq _ _ _ Hh). reflexivity.
Qed.

(** [send] makes at most one call, the caller's, and assigns nothing. *)
Lemma send_frame (method : string) args kwargs (st : State) :
  let st' := snd (send method args kwargs st) in
  this st' = this st /\
  ticks st' = ticks st /\
  (log st' = log st \/
   exists kw, log st' = log st ++ [requests_request method args kw]).
Proof.
  unfold send, bind. destruct (caller_headers kwargs) as [h|] eqn:Hh.
  - rewrite (set_headers_eq _ _ _ Hh). simpl. eauto.
  - destruct (set_headers_not_dict _ st Hh) as [msg ->]. simpl. auto.
Qed.

(** *** [_request] and the verbs *)

(** A verb called with keyword arguments it accepts is [_request] with its
    method. *)
Lemma verb_call_eq (v : Verb) args kwargs :
  accepted kwargs ->
  verb_call v args kwargs = PentaApi._request (verb_method v) args kwargs.
Proof.
  intros [Hs Hm].
  destruct v; simpl;
    unfold PentaApi.get, PentaApi.post, PentaApi.put, PentaApi.delete,
      bound_by_position; rewrite Hs, Hm; reflexivity.
Qed.

(** A verb called with a keyword [self] or [method] raises at once. *)
Lemma verb_call_rejected (v : Verb) args kwargs :
  ~ accepted kwargs ->
  exists msg, forall st,
    verb_call v args kwargs st = (Raise (TypeError msg), st).
Proof.
  unfold accepted. intros Hn.
  destruct (kwargs !! "self") as [x|] eqn:Hs.
  - destruct v; simpl;
      unfold PentaApi.get, PentaApi.post, PentaApi.put, PentaApi.delete,
        bound_by_position; rewrite Hs; eexists; intros st; reflexivity.
  - destruct (kwargs !! "method") as [x|] eqn:Hm.
    + destruct v; simpl;
        unfold PentaApi.get, PentaApi.post, PentaApi.put, PentaApi.delete,
          bound_by_position; rewrite Hs, Hm; eexists; intros st;
          reflexivity.
    + exfalso. apply Hn. auto.
Qed.

Lemma accepted_dec (kwargs : gmap string pyobj) :
  accepted kwargs \/ ~ accepted kwargs.
Proof.
  unfold accepted.
  destruct (kwargs !! "self"); [right; intros [H _]; discriminate|].
  destruct (kwargs !! "method"); [right; intros [_ H]; discriminate|].
  left. auto.
Qed.

(** [_request] is [renew] followed by [send]. *)
Lemma request_renew (method : string) args kwargs (st : State) :
  PentaApi._request method args kwargs st =
  match renew st with
  | (Ret _, st1) => send method args kwargs st1
  | (Raise e, st1) => (Raise e, st1)
  end.
Proof.
  unfold PentaApi._request, renew, bind.
  destruct (PentaApi._is_expired st) as [[b|e] st0]; [|reflexivity].
  destruct ((if b then PentaApi._refresh else ret tt) st0)
    as [[[]|e] st1]; reflexivity.
Qed.

Lemma renew_fresh (st : State) :
  fst (PentaApi._is_expired st) = Ret false ->
  renew st = (Ret tt, tick st).
Proof.
  intros H. apply is_expired_ret in H. unfold renew, bind.
  rewrite H. reflexivity.
Qed.

Lemma renew_stale (st : State) :
  fst (PentaApi._is_expired st) = Ret true ->
  renew st = PentaApi._refresh (tick st).
Proof.
  intros H. apply is_expired_ret in H. unfold renew, bind.
  rewrite H. reflexivity.
Qed.

Lemma renew_raise (st : State) (e : exn) :
  fst (PentaApi._is_expired st) = Raise e ->
  renew st = (Raise e, st).
Proof.
  intros H. apply is_expired_raise in H. unfold renew, bind.
  rewrite H. reflexivity.
Qed.

Lemma request_fresh (method : string) args kwargs (st : State) :
  fst (PentaApi._is_expired st) = Ret false ->
  PentaApi._request method args kwargs st =
  send method args kwargs (tick st).
Proof.
  intros H. rewrite request_renew, (renew_fresh st H). reflexivity.
Qed.

Lemma request_stale (method : string) args kwargs (st : State) :
  fst (PentaApi._is_expired st) = Ret true ->
  PentaApi._request method args kwargs st =
  match PentaApi._refresh (tick st) with
  | (Ret _, st') => send method args kwargs st'
  | (Raise e, st') => (Raise e, st')
  end.
Proof.
  intros H. rewrite request_renew, (renew_stale st H). reflexivity.
Qed.

(** A call that returns went through [send] in some state [st1], the
    one the renewal of the token left. *)
Lemma request_ret (method : string) args kwargs (st st' : State)
    (r : Response) :
  PentaApi._request method args kwargs st = (Ret r, st') ->
  exists st1, send method args kwargs st1 = (Ret r, st').
Proof.
  rewrite request_renew.
  destruct (renew st) as [[[]|e] st1]; [|discriminate].
  intros H. exists st1. exact H.
Qed.

Lemma renew_shape (st : State) :
  let st' := snd (renew st) in
  (log st' = log st \/
   log st' = log st ++ [login_call (this st)] \/
   log st' = log st ++ [refresh_call (this st)]) /\
  (ticks st <= ticks st' <= S (S (ticks st)))%nat.
Proof.
  intros st'. subst st'.
  destruct (fst (PentaApi._is_expired st)) as [[|]|e] eqn:H.
  - rewrite (renew_stale st H).
    destruct (refresh_shape (tick st)) as [Hl Ht]. simpl in Hl, Ht.
    split; [exact Hl | lia].
  - rewrite (renew_fresh st H). simpl. split; [auto | lia].
  - rewrite (renew_raise st e H). simpl. split; [auto | lia].
Qed.

(** The attributes and the clock reads after a call are those [renew]
    leaves. *)
Lemma request_this_ticks (method : string) args kwargs (st : State) :
  this (snd (PentaApi._request method args kwargs st))
  = this (snd (renew st)) /\
  ticks (snd (PentaApi._request method args kwargs st))
  = ticks (snd (renew st)).
Proof.
  rewrite request_renew.
  destruct (renew st) as [[[]|e] st1]; simpl; [|auto].
  destruct (send_frame method args kwargs st1) as (H1 & H2 & _). auto.
Qed.

(** *** The credentials *)

Lemma refresh_credentials (st : State) :
  credentials (snd (PentaApi._refresh st)) = credentials st.
Proof.
  unfold credentials.
  destruct (fst (PentaApi._is_refresh_expired st)) as [[|]|e] eqn:H.
  - rewrite (refresh_relogin st H).
    destruct (login_frame (tick st)) as (-> & -> & _). reflexivity.
  - destruct (refresh_endpoint_frame st H) as (-> & -> & _). reflexivity.
  - rewrite (refresh_raise st e H). reflexivity.
Qed.

Lemma renew_credentials (st : State) :
  credentials (snd (renew st)) = credentials st.
Proof.
  destruct (fst (PentaApi._is_expired st)) as [[|]|e] eqn:H.
  - rewrite (renew_stale st H). apply (refresh_credentials (tick st)).
  - rewrite (renew_fresh st H). reflexivity.
  - rewrite (renew_raise st e H). reflexivity.
Qed.

Lemma request_credentials (method : string) args kwargs (st : State) :
  credentials (snd (PentaApi._request method args kwargs st))
  = credentials st.
Proof.
  unfold credentials.
  destruct (request_this_ticks method args kwargs st) as [-> _].
  apply renew_credentials.
Qed.

Lemma exec_credentials (o : Op) (st : State) :
  credentials (exec o st) = credentials st.
Proof.
  destruct o as [| | | |v args kwargs]; simpl.
  - unfold credentials. destruct (login_frame st) as (-> & -> & _).
    reflexivity.
  - apply refresh_credentials.
  - unfold credentials. destruct (is_expired_frame st) as [-> _].
    reflexivity.
  - unfold credentials. destruct (is_refresh_expired_frame st) as [-> _].
    reflexivity.
  - destruct (accepted_dec kwargs) as [Ha|Hn].
    + rewrite (verb_call_eq v args kwargs Ha). apply request_credentials.
    + destruct (verb_call_rejected v args kwargs Hn) as [msg ->].
      reflexivity.
Qed.
End Equations.

(** ** The claims *)

Section Claims.
Context {E : Env}.

(** C3. For a stored expiry timestamp that parses to [expiration] and a
    clock that reads [now], [_is_expired] returns [True] when the expiry
    is earlier than now or less than five seconds ahead of it, and [False]
    otherwise; [_is_refresh_expired] is the same check on
    [refresh_expires]: it returns what [_is_expired] returns on an
    instance whose [expires] holds the value of [refresh_expires].  The
    margin is strict, as in the code: an expiry exactly five seconds
    ahead is not expired. *)
Theorem C3_expiry_checks (st : State) (s : string) (expiration : Z) :
  strptime s PentaApi.FORMAT = inr expiration ->
  let now := utcnow (ticks st) in
  let expired :=
    expiration < now \/ expiration - now < timedelta_seconds 5 in
  (expires (this st) = PyStr s ->
     (expired -> fst (PentaApi._is_expired st) = Ret true) /\
     (~ expired -> fst (PentaApi._is_expired st) = Ret false)) /\
  (refresh_expires (this st) = PyStr s ->
     (expired -> fst (PentaApi._is_refresh_expired st) = Ret true) /\
     (~ expired -> fst (PentaApi._is_refresh_expired st) = Ret false)) /\
  fst (PentaApi._is_refresh_expired st) =
  fst (PentaApi._is_expired
         (mkState (with_expires (refresh_expires (this st)) (this st))
                  (log st) (ticks st))).
Proof.
  intros Hs now expired.
  assert (Hb : forall b : bool,
             (b = true <-> expired) ->
             (expired -> Ret b = Ret true) /\
             (~ expired -> Ret b = Ret false :> Outcome bool)).
  { intros [|] Hb; split; intros H; try reflexivity.
    - exfalso. apply H, Hb. reflexivity.
    - apply Hb in H. discriminate. }
  split; [|split].
  - intros He. rewrite is_expired_eq, He. simpl. rewrite Hs. simpl.
    apply Hb, expired_at_true.
  - intros He. rewrite is_refresh_expired_eq, He. simpl. rewrite Hs. simpl.
    apply Hb, expired_at_true.
  - rewrite is_refresh_expired_eq, is_expired_eq. simpl.
    destruct (strptime_of (refresh_expires (this st)) PentaApi.FORMAT);
      reflexivity.
Qed.

(** C5, as the code has it.  [_login] posts the credentials to the login
    endpoint.  When the status is 200 and the body is an object that
    carries [token], [expires], [refresh_token] and [refresh_expires], the
    four session attributes hold exactly these values afterwards.  On any
    other status it raises [ValueError('Credentials not valid')] and
    assigns nothing: the attributes are what they were before the call.
    In [__init__], which has just set them to [None], all four are still
    [None]; on a login that [_refresh] starts, the earlier session stays
    in place. *)
Theorem C5_login (st : State) :
  let call :=
    requests_post (urljoin PentaApi.DOMAIN PentaApi.LOGIN)
      {[ "Content-type" := PyStr "application/json" ]}
      (Some (<[ "api_key" := PyStr (api_key (this st)) ]>
               {[ "email" := PyStr (email (this st)) ]})) in
  let response := transport (log st) call in
  log (snd (PentaApi._login st)) = log st ++ [call] /\
  (forall (d : gmap string pyobj) (t e rt re : pyobj),
      status_code response = 200 ->
      json response = inr (PyDict d) ->
      d !! "token" = Some t ->
      d !! "expires" = Some e ->
      d !! "refresh_token" = Some rt ->
      d !! "refresh_expires" = Some re ->
      PentaApi._login st =
      (Ret tt,
       mkState (mkAttrs (email (this st)) (api_key (this st)) t e rt re)
               (log st ++ [call]) (ticks st))) /\
  (status_code response <> 200 ->
     PentaApi._login st =
     (Raise (ValueError "Credentials not valid"),
      mkState (this st) (log st ++ [call]) (ticks st))) /\
  (forall email api_key : string,
      status_code
        (transport (log st) (login_call (blank email api_key))) <> 200 ->
      PentaApi.__init__ email api_key st =
      (Raise (ValueError "Credentials not valid"),
       mkState (mkAttrs email api_key PyNone PyNone PyNone PyNone)
               (log st ++ [login_call (blank email api_key)])
               (ticks st))).
Proof.
  intros call response. split; [|split; [|split]].
  - apply login_frame.
  - intros d t e rt re. apply login_success.
  - apply login_failure.
  - intros em key Hs. unfold PentaApi.__init__, bind, update_self.
    fold (blank em key).
    rewrite (login_failure (mkState (blank em key) (log st) (ticks st)) Hs).
    reflexivity.
Qed.

(** C6. When [_refresh] goes through the refresh endpoint (the refresh
    token is not expired) and the status is 200, the attributes
    [refresh_token], [refresh_expires], [email] and [api_key] are
    unchanged; [token] and [expires] take the values of the body. *)
Theorem C6_refresh_changes_access_only (st : State) :
  fst (PentaApi._is_refresh_expired st) = Ret false ->
  let response := transport (log st) (refresh_call (this st)) in
  status_code response = 200 ->
  let st' := snd (PentaApi._refresh st) in
  refresh_token (this st') = refresh_token (this st) /\
  refresh_expires (this st') = refresh_expires (this st) /\
  email (this st') = email (this st) /\
  api_key (this st') = api_key (this st) /\
  (forall (d : gmap string pyobj) (t e : pyobj),
      json response = inr (PyDict d) ->
      d !! "token" = Some t ->
      d !! "expires" = Some e ->
      fst (PentaApi._refresh st) = Ret tt /\
      token (this st') = t /\
      expires (this st') = e).
Proof.
  intros H response Hs st'.
  destruct (refresh_endpoint_frame st H) as (He & Hk & Hrt & Hre & _).
  do 4 (split; [assumption|]).
  intros d t e Hd Ht Hx. subst st'.
  rewrite (refresh_success st d t e H Hs Hd Ht Hx).
  repeat split; reflexivity.
Qed.

(** C10. When [_refresh] goes through the refresh endpoint and the
    status is not 200, it raises before any assignment: every attribute
    of the instance, the four session attributes among them, is what it
    was before the call. *)
Theorem C10_failed_refresh_keeps_session (st : State) :
  fst (PentaApi._is_refresh_expired st) = Ret false ->
  status_code (transport (log st) (refresh_call (this st))) <> 200 ->
  fst (PentaApi._refresh st) = Raise (ValueError "Cannot refresh JWT") /\
  this (snd (PentaApi._refresh st)) = this st /\
  token (this (snd (PentaApi._refresh st))) = token (this st) /\
  expires (this (snd (PentaApi._refresh st))) = expires (this st) /\
  refresh_token (this (snd (PentaApi._refresh st)))
  = refresh_token (this st) /\
  refresh_expires (this (snd (PentaApi._refresh st)))
  = refresh_expires (this st).
Proof.
  intros H Hs. rewrite (refresh_failure st H Hs). simpl.
  repeat split; reflexivity.
Qed.

(** C8. A verb call made while the access token is fresh makes no call
    to the login or the refresh endpoint: the only call it makes is the
    caller's, with the header [Authorization: Bearer <token>] for the
    token the instance holds, and it returns the response of [requests]
    as it is.  The attributes are untouched.  (The keyword arguments are
    ones the verb accepts, and [h] is the dictionary the caller gave as
    [headers], empty when none was given.) *)
Theorem C8_fresh_access_sends_directly (v : Verb) (args : list pyobj)
    (kwargs : gmap string pyobj) (h : gmap string pyobj) (st : State) :
  accepted kwargs ->
  fst (PentaApi._is_expired st) = Ret false ->
  caller_headers kwargs = Some h ->
  let sent := outgoing_headers (token (this st)) h in
  let original :=
    requests_request (verb_method v) args
      (<[ "headers" := PyDict sent ]> kwargs) in
  verb_call v args kwargs st =
  (Ret (transport (log st) original),
   mkState (this st) (log st ++ [original]) (S (ticks st))) /\
  sent !! "Authorization"
  = Some (PyStr ("Bearer " +:+ format (token (this st)))) /\
  posts_to LOGIN_URL original = false /\
  posts_to REFRESH_URL original = false.
Proof.
  intros Ha H Hh sent original. split; [|split; [|split]].
  - rewrite (verb_call_eq v args kwargs Ha), (request_fresh _ _ _ st H).
    apply (send_eq v args kwargs h (tick st) Hh).
  - unfold sent, outgoing_headers.
    rewrite lookup_insert_ne by discriminate. apply lookup_insert_eq.
  - reflexivity.
  - reflexivity.
Qed.

(** C1. A verb call made when the access token is expired and the
    refresh token is not makes exactly one [requests.post], to the
    refresh endpoint, with the single header
    [Authorization: Bearer <refresh_token>] and no body, before anything
    else; the only call that can follow is the caller's.  When the
    endpoint answers 200 with [token] and [expires], the caller's
    request follows, with the new token in its [Authorization] header,
    and its response is returned.  (The keyword arguments are ones the
    verb accepts.) *)
Theorem C1_stale_access_refreshes_once (v : Verb) (args : list pyobj)
    (kwargs : gmap string pyobj) (st : State) :
  accepted kwargs ->
  fst (PentaApi._is_expired st) = Ret true ->
  fst (PentaApi._is_refresh_expired (snd (PentaApi._is_expired st)))
  = Ret false ->
  let refresh :=
    requests_post (urljoin PentaApi.DOMAIN PentaApi.REFRESH)
      {[ "Authorization" :=
           PyStr ("Bearer " +:+ format (refresh_token (this st))) ]}
      None in
  let response := transport (log st) refresh in
  let st' := snd (verb_call v args kwargs st) in
  (exists rest,
      log st' = log st ++ refresh :: rest /\
      (rest = [] \/
       exists kw, rest = [requests_request (verb_method v) args kw])) /\
  (forall (d : gmap string pyobj) (t e : pyobj) (h : gmap string pyobj),
      status_code response = 200 ->
      json response = inr (PyDict d) ->
      d !! "token" = Some t ->
      d !! "expires" = Some e ->
      caller_headers kwargs = Some h ->
      let original :=
        requests_request (verb_method v) args
          (<[ "headers" := PyDict (outgoing_headers t h) ]> kwargs) in
      verb_call v args kwargs st =
      (Ret (transport (log st ++ [refresh]) original),
       mkState (with_expires e (with_token t (this st)))
               (log st ++ [refresh; original]) (S (S (ticks st))))).
Proof.
  intros Ha H Hr refresh response st'.
  rewrite (is_expired_ret st true H) in Hr. simpl in Hr.
  split.
  - subst st'.
    rewrite (verb_call_eq v args kwargs Ha), (request_stale _ _ _ st H).
    destruct (refresh_endpoint_frame (tick st) Hr) as (_ & _ & _ & _ & Hl).
    simpl in Hl. change (refresh_call (this st)) with refresh in Hl.
    destruct (PentaApi._refresh (tick st)) as [[[]|e] st1]; simpl in *.
    + destruct (send_frame (verb_method v) args kwargs st1)
        as (_ & _ & [Hs|[kw Hs]]); rewrite Hs, Hl.
      * exists []. auto.
      * exists [requests_request (verb_method v) args kw].
        rewrite <- app_assoc. eauto.
    + exists []. auto.
  - intros d t e h Hs Hd Ht He Hh original.
    rewrite (verb_call_eq v args kwargs Ha), (request_stale _ _ _ st H).
    rewrite (refresh_success (tick st) d t e Hr Hs Hd Ht He).
    rewrite (send_eq v args kwargs h _ Hh). simpl.
    unfold logged, outgoing_call. simpl. rewrite <- app_assoc. reflexivity.
Qed.

(** C2, as the code has it.  A verb call made when the access token is
    expired and the refresh token is expired too logs in again: its
    first call is the [requests.post] of the credentials to the login
    endpoint, nothing but the caller's request can follow, and no call
    goes to the refresh endpoint; when the login endpoint answers 200
    with the four fields, the caller's request follows with the new
    token.  A verb call made when the access token is fresh makes no
    [requests.post] at all, no login and no refresh, whatever the
    attributes of the refresh token are, and leaves the attributes as
    they are.  (The keyword arguments are ones the verb accepts.) *)
Theorem C2_relogin_when_both_expired (v : Verb) (args : list pyobj)
    (kwargs : gmap string pyobj) (st : State) :
  accepted kwargs ->
  let login :=
    requests_post (urljoin PentaApi.DOMAIN PentaApi.LOGIN)
      {[ "Content-type" := PyStr "application/json" ]}
      (Some (<[ "api_key" := PyStr (api_key (this st)) ]>
               {[ "email" := PyStr (email (this st)) ]})) in
  let response := transport (log st) login in
  let st' := snd (verb_call v args kwargs st) in
  (fst (PentaApi._is_expired st) = Ret true ->
   fst (PentaApi._is_refresh_expired (snd (PentaApi._is_expired st)))
   = Ret true ->
   (exists rest,
       log st' = log st ++ login :: rest /\
       (rest = [] \/
        exists kw, rest = [requests_request (verb_method v) args kw]) /\
       existsb (posts_to REFRESH_URL) (login :: rest) = false) /\
   (forall (d : gmap string pyobj) (t e rt re : pyobj)
           (h : gmap string pyobj),
       status_code response = 200 ->
       json response = inr (PyDict d) ->
       d !! "token" = Some t ->
       d !! "expires" = Some e ->
       d !! "refresh_token" = Some rt ->
       d !! "refresh_expires" = Some re ->
       caller_headers kwargs = Some h ->
       let original :=
         requests_request (verb_method v) args
           (<[ "headers" := PyDict (outgoing_headers t h) ]> kwargs) in
       verb_call v args kwargs st =
       (Ret (transport (log st ++ [login]) original),
        mkState (mkAttrs (email (this st)) (api_key (this st)) t e rt re)
                (log st ++ [login; original]) (S (S (ticks st)))))) /\
  (fst (PentaApi._is_expired st) = Ret false ->
   this st' = this st /\
   (log st' = log st \/
    exists kw,
      log st' = log st ++ [requests_request (verb_method v) args kw]) /\
   existsb (posts_to LOGIN_URL) (skipn (length (log st)) (log st'))
   = false /\
   existsb (posts_to REFRESH_URL) (skipn (length (log st)) (log st'))
   = false).
Proof.
  intros Ha login response st'. split.
  - intros H Hr.
    rewrite (is_expired_ret st true H) in Hr. simpl in Hr.
    split.
    + subst st'.
      rewrite (verb_call_eq v args kwargs Ha), (request_stale _ _ _ st H).
      rewrite (refresh_relogin (tick st) Hr).
      destruct (login_frame (tick (tick st))) as (_ & _ & Hl).
      simpl in Hl. change (login_call (this st)) with login in Hl.
      destruct (PentaApi._login (tick (tick st))) as [[[]|e] st1];
        simpl in *.
      * destruct (send_frame (verb_method v) args kwargs st1)
          as (_ & _ & [Hs|[kw Hs]]); rewrite Hs, Hl.
        -- exists []. auto.
        -- exists [requests_request (verb_method v) args kw].
           rewrite <- app_assoc. eauto.
      * exists []. auto.
    + intros d t e rt re h Hs Hd Ht He Hrt Hre Hh original.
      rewrite (verb_call_eq v args kwargs Ha), (request_stale _ _ _ st H).
      rewrite (refresh_relogin (tick st) Hr).
      rewrite (login_success (tick (tick st)) d t e rt re
                 Hs Hd Ht He Hrt Hre).
      rewrite (send_eq v args kwargs h _ Hh). simpl.
      unfold logged, outgoing_call. simpl. rewrite <- app_assoc.
      reflexivity.
  - intros H. subst st'.
    rewrite (verb_call_eq v args kwargs Ha), (request_fresh _ _ _ st H).
    destruct (send_frame (verb_method v) args kwargs (tick st))
      as (Hthis & _ & Hlog).
    simpl in Hthis, Hlog. split; [exact Hthis|]. split; [exact Hlog|].
    destruct Hlog as [Hl|[kw Hl]]; rewrite Hl.
    + rewrite skipn_all. auto.
    + rewrite skipn_app, skipn_all, Nat.sub_diag. auto.
Qed.

(** C4. In every verb call that reaches [requests], the headers handed
    over hold [Authorization: Bearer <token>] for the token the instance
    holds at that moment and [Content-type: application/json], whatever
    the caller gave for these two keys; every other key of the caller's
    dictionary [h] is there with the caller's value, and no key is
    added.  When the caller gave no headers, the two are the only
    ones. *)
Theorem C4_headers (v : Verb) (args : list pyobj)
    (kwargs : gmap string pyobj) (h : gmap string pyobj)
    (st st' : State) (r : Response) :
  caller_headers kwargs = Some h ->
  verb_call v args kwargs st = (Ret r, st') ->
  exists sent : gmap string pyobj,
    last (log st') =
    Some (requests_request (verb_method v) args
            (<[ "headers" := PyDict sent ]> kwargs)) /\
    sent !! "Authorization"
    = Some (PyStr ("Bearer " +:+ format (token (this st')))) /\
    sent !! "Content-type" = Some (PyStr "application/json") /\
    (forall k : string,
        k <> "Authorization" -> k <> "Content-type" ->
        sent !! k = h !! k) /\
    (kwargs !! "headers" = None ->
     sent =
     <[ "Content-type" := PyStr "application/json" ]>
       {[ "Authorization" :=
            PyStr ("Bearer " +:+ format (token (this st'))) ]} /\
     dom sent = {[ "Authorization"; "Content-type" ]}).
Proof.
  intros Hh Hcall.
  destruct (accepted_dec kwargs) as [Ha|Hn];
    [|destruct (verb_call_rejected v args kwargs Hn) as [msg Hr];
      rewrite Hr in Hcall; discriminate].
  rewrite (verb_call_eq v args kwargs Ha) in Hcall.
  destruct (request_ret _ _ _ _ _ _ Hcall) as [st1 Hsend].
  rewrite (send_eq v args kwargs h st1 Hh) in Hsend.
  injection Hsend as _ <-.
  exists (outgoing_headers (token (this st1)) h). simpl.
  split; [|split; [|split; [|split]]].
  - rewrite last_snoc. reflexivity.
  - unfold outgoing_headers.
    rewrite lookup_insert_ne by discriminate. apply lookup_insert_eq.
  - unfold outgoing_headers. apply lookup_insert_eq.
  - intros k Hk1 Hk2. unfold outgoing_headers.
    rewrite !lookup_insert_ne by congruence. reflexivity.
  - intros Hnone. unfold caller_headers in Hh. rewrite Hnone in Hh.
    injection Hh as <-. split; [reflexivity|].
    unfold outgoing_headers. rewrite !dom_insert_L, dom_empty_L.
    set_solver.
Qed.

(** C7, as the code has it.  When [_refresh] goes through the refresh
    endpoint and the status is not 200, it raises
    [ValueError('Cannot refresh JWT')] after its one call.  The exception
    is a [ValueError], the class of the exception a failed login raises;
    the two differ by their message only.  A verb call that needed the
    refresh ends with the same exception right after the call to the
    refresh endpoint: no second attempt, and the caller's request is not
    sent.  (The keyword arguments are ones the verb accepts.) *)
Theorem C7_refresh_failure_raises_value_error (st : State) :
  fst (PentaApi._is_refresh_expired st) = Ret false ->
  status_code (transport (log st) (refresh_call (this st))) <> 200 ->
  let failure := ValueError "Cannot refresh JWT" in
  let st' :=
    mkState (this st) (log st ++ [refresh_call (this st)])
            (S (ticks st)) in
  PentaApi._refresh st = (Raise failure, st') /\
  (forall st2 : State,
      status_code (transport (log st2) (login_call (this st2))) <> 200 ->
      exists e,
        fst (PentaApi._login st2) = Raise e /\
        class_of e = class_of failure /\
        message_of e <> message_of failure) /\
  (forall (st0 : State) (v : Verb) args kwargs,
      accepted kwargs ->
      fst (PentaApi._is_expired st0) = Ret true ->
      snd (PentaApi._is_expired st0) = st ->
      verb_call v args kwargs st0 = (Raise failure, st')).
Proof.
  intros H Hs failure st'. split; [|split].
  - apply (refresh_failure st H Hs).
  - intros st2 Hs2. exists (ValueError "Credentials not valid").
    rewrite (login_failure st2 Hs2). simpl.
    split; [reflexivity|]. split; [reflexivity|]. discriminate.
  - intros st0 v args kwargs Ha H0 Hst.
    rewrite (is_expired_ret st0 true H0) in Hst. simpl in Hst.
    rewrite (verb_call_eq v args kwargs Ha), (request_stale _ _ _ st0 H0).
    rewrite Hst, (refresh_failure st H Hs). reflexivity.
Qed.

(** C9. [__init__] stores its arguments in [email] and [api_key], and
    no operation assigns them again: after the construction and any
    sequence of logins, refreshes, expiry checks and verb calls, whether
    they return or raise, the two attributes hold the arguments of the
    constructor. *)
Theorem C9_credentials_immutable (email0 api_key0 : string)
    (st : State) (ops : list Op) :
  let constructed := snd (PentaApi.__init__ email0 api_key0 st) in
  email (this constructed) = email0 /\
  api_key (this constructed) = api_key0 /\
  email (this (exec_all ops constructed)) = email0 /\
  api_key (this (exec_all ops constructed)) = api_key0 /\
  (forall o : Op,
      email (this (exec o st)) = email (this st) /\
      api_key (this (exec o st)) = api_key (this st)).
Proof.
  intros constructed.
  assert (Hc : credentials constructed = (email0, api_key0)).
  { subst constructed. unfold PentaApi.__init__, bind, update_self.
    pose proof (login_frame
      (mkState (mkAttrs email0 api_key0 PyNone PyNone PyNone PyNone)
               (log st) (ticks st))) as (He & Hk & _).
    unfold credentials. rewrite He, Hk. reflexivity. }
  assert (Hall : forall ops s,
             credentials (exec_all ops s) = credentials s).
  { clear. intros ops. induction ops as [|o ops IH]; intros s.
    - reflexivity.
    - simpl. rewrite IH. apply exec_credentials. }
  specialize (Hall ops constructed). rewrite Hc in Hall.
  unfold credentials in Hc, Hall.
  injection Hc as He Hk. injection Hall as He' Hk'.
  repeat split; try assumption.
  all: pose proof (exec_credentials o st) as Ho;
    unfold credentials in Ho; congruence.
Qed.
End Claims.

(** ** The claims on concrete runs *)

Lemma C3_witness :
  @strptime env_up "20300101000000" PentaApi.FORMAT
  = inr 1893456000000000 /\
  fst (@PentaApi._is_expired env_up st_fresh) = Ret false /\
  fst (@PentaApi._is_refresh_expired env_up st_refresh_lapsed) = Ret true.
Proof.
  assert (H : @strptime env_up "20300101000000" PentaApi.FORMAT
              = inr 1893456000000000) by (vm_compute; reflexivity).
  assert (H' : @strptime env_up "20280101000000" PentaApi.FORMAT
               = inr 1830297600000000) by (vm_compute; reflexivity).
  split; [exact H|]. split.
  - destruct (@C3_expiry_checks env_up st_fresh _ _ H) as [Ha _].
    apply (Ha eq_refl). vm_compute. intros [Hlt|Hlt]; discriminate Hlt.
  - destruct (@C3_expiry_checks env_up st_refresh_lapsed _ _ H')
      as (_ & Hr & _).
    apply (Hr eq_refl). left. vm_compute. reflexivity.
Defined.

(** Exactly five seconds ahead is not expired; a second less is. *)
Example margin_is_strict :
  expired_at (t_2029 + timedelta_seconds 5) t_2029 = false /\
  expired_at (t_2029 + timedelta_seconds 4) t_2029 = true /\
  expired_at t_2029 t_2029 = true.
Proof. vm_compute. auto. Qed.

Lemma C8_witness :
  let st := snd (@PentaApi.__init__ env_up "a@b.com" "k" start) in
  token (this st) = PyStr "T1" /\
  accepted ∅ /\
  fst (@PentaApi._is_expired env_up st) = Ret false /\
  caller_headers ∅ = Some ∅ /\
  @PentaApi.get env_up [PyStr "/x"] ∅ st =
  (Ret not_found,
   mkState (this st)
     [login_call (blank "a@b.com" "k");
      requests_request "GET" [PyStr "/x"]
        {[ "headers" :=
             PyDict (<[ "Content-type" := PyStr "application/json" ]>
                       {[ "Authorization" := PyStr "Bearer T1" ]}) ]}]
     1).
Proof.
  intros st.
  assert (Ha : accepted ∅) by (split; reflexivity).
  assert (H1 : fst (@PentaApi._is_expired env_up st) = Ret false)
    by (vm_compute; reflexivity).
  assert (H2 : caller_headers (∅ : gmap string pyobj) = Some ∅)
    by reflexivity.
  split; [vm_compute; reflexivity|]. split; [exact Ha|].
  split; [exact H1|]. split; [exact H2|].
  exact (proj1 (@C8_fresh_access_sends_directly env_up GET [PyStr "/x"]
                  ∅ ∅ st Ha H1 H2)).
Defined.

Lemma C1_witness :
  accepted kw_caller /\
  fst (@PentaApi._is_expired env_up st_stale) = Ret true /\
  fst (@PentaApi._is_refresh_expired env_up
         (snd (@PentaApi._is_expired env_up st_stale))) = Ret false /\
  caller_headers kw_caller = Some h_caller /\
  @PentaApi.post env_up [PyStr "/x"] kw_caller st_stale =
  (Ret not_found,
   mkState (mkAttrs "a@b.com" "k" (PyStr "T2") (PyStr "20300102000000")
                    (PyStr "R1") (PyStr "20300101000000"))
     [requests_post REFRESH_URL
        {[ "Authorization" := PyStr "Bearer R1" ]} None;
      requests_request "POST" [PyStr "/x"]
        (<[ "headers" :=
              PyDict (<[ "Content-type" := PyStr "application/json" ]>
                     (<[ "Authorization" := PyStr "Bearer T2" ]>
                        h_caller)) ]>
           kw_caller)]
     2).
Proof.
  assert (Ha : accepted kw_caller) by (split; vm_compute; reflexivity).
  assert (H1 : fst (@PentaApi._is_expired env_up st_stale) = Ret true)
    by (vm_compute; reflexivity).
  assert (H2 : fst (@PentaApi._is_refresh_expired env_up
                      (snd (@PentaApi._is_expired env_up st_stale)))
               = Ret false) by (vm_compute; reflexivity).
  assert (H3 : caller_headers kw_caller = Some h_caller)
    by (vm_compute; reflexivity).
  split; [exact Ha|]. split; [exact H1|]. split; [exact H2|].
  split; [exact H3|].
  refine (proj2 (@C1_stale_access_refreshes_once env_up POST [PyStr "/x"]
                   kw_caller st_stale Ha H1 H2)
            refresh_fields (PyStr "T2") (PyStr "20300102000000") h_caller
            _ _ _ _ H3);
    vm_compute; reflexivity.
Defined.

Lemma C2_counterexample :
  accepted ∅ /\
  fst (@PentaApi._is_expired env_up st_refresh_lapsed) = Ret false /\
  fst (@PentaApi._is_refresh_expired env_up
         (snd (@PentaApi._is_expired env_up st_refresh_lapsed)))
  = Ret true /\
  log (snd (@PentaApi.get env_up [PyStr "/x"] ∅ st_refresh_lapsed)) =
  [requests_request "GET" [PyStr "/x"]
     {[ "headers" :=
          PyDict (<[ "Content-type" := PyStr "application/json" ]>
                    {[ "Authorization" := PyStr "Bearer T1" ]}) ]}] /\
  existsb (posts_to LOGIN_URL)
    (log (snd (@PentaApi.get env_up [PyStr "/x"] ∅ st_refresh_lapsed)))
  = false.
Proof.
  split; [split; reflexivity|]. vm_compute. repeat split; reflexivity.
Qed.

Lemma C2_witness :
  accepted ∅ /\
  fst (@PentaApi._is_expired env_up st_lapsed) = Ret true /\
  fst (@PentaApi._is_refresh_expired env_up
         (snd (@PentaApi._is_expired env_up st_lapsed))) = Ret true /\
  @PentaApi.delete env_up [PyStr "/x"] ∅ st_lapsed =
  (Ret not_found,
   mkState (mkAttrs "a@b.com" "k" (PyStr "T1") (PyStr "20300101000000")
                    (PyStr "R1") (PyStr "20300101000000"))
     [login_call (this st_lapsed);
      requests_request "DELETE" [PyStr "/x"]
        {[ "headers" :=
             PyDict (<[ "Content-type" := PyStr "application/json" ]>
                       {[ "Authorization" := PyStr "Bearer T1" ]}) ]}]
     2) /\
  fst (@PentaApi._is_expired env_up st_refresh_lapsed) = Ret false /\
  existsb (posts_to LOGIN_URL)
    (skipn (length (log st_refresh_lapsed))
       (log (snd (@PentaApi.delete env_up [PyStr "/x"] ∅
                    st_refresh_lapsed))))
  = false.
Proof.
  assert (Ha : accepted ∅) by (split; reflexivity).
  assert (H1 : fst (@PentaApi._is_expired env_up st_lapsed) = Ret true)
    by (vm_compute; reflexivity).
  assert (H2 : fst (@PentaApi._is_refresh_expired env_up
                      (snd (@PentaApi._is_expired env_up st_lapsed)))
               = Ret true) by (vm_compute; reflexivity).
  assert (H3 : fst (@PentaApi._is_expired env_up st_refresh_lapsed)
               = Ret false) by (vm_compute; reflexivity).
  split; [exact Ha|]. split; [exact H1|]. split; [exact H2|].
  split; [|split; [exact H3|]].
  - refine (proj2 (proj1 (@C2_relogin_when_both_expired env_up DELETE
                            [PyStr "/x"] ∅ st_lapsed Ha) H1 H2)
              login_fields (PyStr "T1") (PyStr "20300101000000")
              (PyStr "R1") (PyStr "20300101000000") ∅ _ _ _ _ _ _ _);
      vm_compute; reflexivity.
  - destruct (proj2 (@C2_relogin_when_both_expired env_up DELETE
                       [PyStr "/x"] ∅ st_refresh_lapsed Ha) H3)
      as (_ & _ & Hlogin & _).
    exact Hlogin.
Defined.

Lemma C4_witness :
  let st' := snd (@PentaApi.put env_up [PyStr "/x"] kw_caller st_fresh) in
  caller_headers kw_caller = Some h_caller /\
  @PentaApi.put env_up [PyStr "/x"] kw_caller st_fresh
  = (Ret not_found, st') /\
  exists sent : gmap string pyobj,
    last (log st') =
    Some (requests_request "PUT" [PyStr "/x"]
            (<[ "headers" := PyDict sent ]> kw_caller)) /\
    sent !! "Authorization" = Some (PyStr "Bearer T1") /\
    sent !! "Content-type" = Some (PyStr "application/json") /\
    sent !! "Accept" = Some (PyStr "text/plain").
Proof.
  intros st'.
  assert (H1 : caller_headers kw_caller = Some h_caller)
    by (vm_compute; reflexivity).
  assert (H2 : @verb_call env_up PUT [PyStr "/x"] kw_caller st_fresh
               = (Ret not_found, st')) by (vm_compute; reflexivity).
  split; [exact H1|]. split; [exact H2|].
  destruct (@C4_headers env_up PUT [PyStr "/x"] kw_caller h_caller
              st_fresh st' not_found H1 H2)
    as (sent & Hlast & Hauth & Hct & Hother & _).
  exists sent. split; [exact Hlast|]. split; [exact Hauth|].
  split; [exact Hct|].
  rewrite (Hother "Accept") by discriminate. vm_compute. reflexivity.
Defined.

Lemma C5_counterexample :
  status_code (@transport env_down (log st_lapsed)
                 (login_call (this st_lapsed))) = 401 /\
  fst (@PentaApi._login env_down st_lapsed)
  = Raise (ValueError "Credentials not valid") /\
  token (this (snd (@PentaApi._login env_down st_lapsed))) = PyStr "T1" /\
  refresh_token (this (snd (@PentaApi._login env_down st_lapsed)))
  = PyStr "R1" /\
  ~ (token (this (snd (@PentaApi._login env_down st_lapsed))) = PyNone /\
     expires (this (snd (@PentaApi._login env_down st_lapsed))) = PyNone /\
     refresh_token (this (snd (@PentaApi._login env_down st_lapsed)))
     = PyNone /\
     refresh_expires (this (snd (@PentaApi._login env_down st_lapsed)))
     = PyNone).
Proof.
  vm_compute. repeat split; try reflexivity. intros [H _]. discriminate H.
Qed.

Lemma C5_witness :
  @PentaApi.__init__ env_up "a@b.com" "k" start =
  (Ret tt,
   mkState (mkAttrs "a@b.com" "k" (PyStr "T1") (PyStr "20300101000000")
                    (PyStr "R1") (PyStr "20300101000000"))
           [login_call (blank "a@b.com" "k")] 0) /\
  @PentaApi.__init__ env_down "a@b.com" "k" start =
  (Raise (ValueError "Credentials not valid"),
   mkState (mkAttrs "a@b.com" "k" PyNone PyNone PyNone PyNone)
           [login_call (blank "a@b.com" "k")] 0) /\
  @PentaApi._login env_down st_lapsed =
  (Raise (ValueError "Credentials not valid"),
   mkState (this st_lapsed) [login_call (this st_lapsed)] 0).
Proof.
  split; [|split].
  - refine (proj1 (proj2 (@C5_login env_up
                            (mkState (blank "a@b.com" "k") [] 0)))
              login_fields (PyStr "T1") (PyStr "20300101000000")
              (PyStr "R1") (PyStr "20300101000000") _ _ _ _ _ _);
      vm_compute; reflexivity.
  - refine (proj2 (proj2 (proj2 (@C5_login env_down start)))
              "a@b.com" "k" _).
    vm_compute. discriminate.
  - refine (proj1 (proj2 (proj2 (@C5_login env_down st_lapsed))) _).
    vm_compute. discriminate.
Defined.

Lemma C6_witness :
  let st' := snd (@PentaApi._refresh env_up st_stale) in
  fst (@PentaApi._is_refresh_expired env_up st_stale) = Ret false /\
  status_code (@transport env_up (log st_stale)
                 (@refresh_call env_up (this st_stale))) = 200 /\
  this st' =
  mkAttrs "a@b.com" "k" (PyStr "T2") (PyStr "20300102000000")
          (PyStr "R1") (PyStr "20300101000000") /\
  refresh_token (this st') = refresh_token (this st_stale) /\
  refresh_expires (this st') = refresh_expires (this st_stale).
Proof.
  intros st'.
  assert (H1 : fst (@PentaApi._is_refresh_expired env_up st_stale)
               = Ret false) by (vm_compute; reflexivity).
  assert (H2 : status_code (@transport env_up (log st_stale)
                              (@refresh_call env_up (this st_stale))) = 200)
    by (vm_compute; reflexivity).
  split; [exact H1|]. split; [exact H2|]. split; [vm_compute; reflexivity|].
  destruct (@C6_refresh_changes_access_only env_up st_stale H1 H2)
    as (Hrt & Hre & _).
  split; [exact Hrt | exact Hre].
Defined.

Lemma C7_counterexample :
  fst (@PentaApi._is_refresh_expired env_down st_stale) = Ret false /\
  status_code (@transport env_down (log st_stale)
                 (@refresh_call env_down (this st_stale))) = 500 /\
  fst (@PentaApi._refresh env_down st_stale)
  = Raise (ValueError "Cannot refresh JWT") /\
  fst (@PentaApi._login env_down st_stale)
  = Raise (ValueError "Credentials not valid") /\
  ~ (forall e_refresh e_login : exn,
        fst (@PentaApi._refresh env_down st_stale) = Raise e_refresh ->
        fst (@PentaApi._login env_down st_stale) = Raise e_login ->
        class_of e_refresh <> class_of e_login).
Proof.
  assert (Hr : fst (@PentaApi._refresh env_down st_stale)
               = Raise (ValueError "Cannot refresh JWT"))
    by (vm_compute; reflexivity).
  assert (Hl : fst (@PentaApi._login env_down st_stale)
               = Raise (ValueError "Credentials not valid"))
    by (vm_compute; reflexivity).
  split; [vm_compute; reflexivity|]. split; [vm_compute; reflexivity|].
  split; [exact Hr|]. split; [exact Hl|].
  intros H. apply (H _ _ Hr Hl). reflexivity.
Qed.

Lemma C7_witness :
  fst (@PentaApi._is_refresh_expired env_down (tick st_stale))
  = Ret false /\
  status_code (@transport env_down (log (tick st_stale))
                 (@refresh_call env_down (this (tick st_stale)))) <> 200 /\
  accepted kw_caller /\
  fst (@PentaApi._is_expired env_down st_stale) = Ret true /\
  @PentaApi.put env_down [PyStr "/x"] kw_caller st_stale =
  (Raise (ValueError "Cannot refresh JWT"),
   mkState (this st_stale)
     [requests_post REFRESH_URL
        {[ "Authorization" := PyStr "Bearer R1" ]} None]
     2).
Proof.
  assert (H1 : fst (@PentaApi._is_refresh_expired env_down (tick st_stale))
               = Ret false) by (vm_compute; reflexivity).
  assert (H2 : status_code (@transport env_down (log (tick st_stale))
                              (@refresh_call env_down
                                 (this (tick st_stale)))) <> 200)
    by (vm_compute; discriminate).
  assert (Ha : accepted kw_caller) by (split; vm_compute; reflexivity).
  assert (H3 : fst (@PentaApi._is_expired env_down st_stale) = Ret true)
    by (vm_compute; reflexivity).
  split; [exact H1|]. split; [exact H2|]. split; [exact Ha|].
  split; [exact H3|].
  refine (proj2 (proj2 (@C7_refresh_failure_raises_value_error env_down
                          (tick st_stale) H1 H2))
            st_stale PUT [PyStr "/x"] kw_caller Ha H3 _).
  vm_compute. reflexivity.
Defined.

Lemma C10_witness :
  fst (@PentaApi._is_refresh_expired env_down st_stale) = Ret false /\
  status_code (@transport env_down (log st_stale)
                 (@refresh_call env_down (this st_stale))) <> 200 /\
  fst (@PentaApi._refresh env_down st_stale)
  = Raise (ValueError "Cannot refresh JWT") /\
  this (snd (@PentaApi._refresh env_down st_stale)) =
  mkAttrs "a@b.com" "k" (PyStr "T1") (PyStr "20280101000000")
          (PyStr "R1") (PyStr "20300101000000").
Proof.
  assert (H1 : fst (@PentaApi._is_refresh_expired env_down st_stale)
               = Ret false) by (vm_compute; reflexivity).
  assert (H2 : status_code (@transport env_down (log st_stale)
                              (@refresh_call env_down (this st_stale)))
               <> 200)
    by (vm_compute; discriminate).
  split; [exact H1|]. split; [exact H2|].
  destruct (@C10_failed_refresh_keeps_session env_down st_stale H1 H2)
    as (Hraise & Hthis & _).
  split; [exact Hraise | exact Hthis].
Defined.

(** The credentials after a construction and a run of operations, some of
    which raise. *)
Example credentials_after_run :
  credentials
    (@exec_all env_down
       [op_verb GET [PyStr "/x"] ∅; op_refresh; op_login;
        op_verb POST [] kw_caller; op_verb PUT [] kw_method]
       (snd (@PentaApi.__init__ env_up "a@b.com" "k" start)))
  = ("a@b.com", "k").
Proof. vm_compute. reflexivity. Qed.

(** A caller who passes [headers=None] gets a [TypeError] from the item
    assignment, and nothing is sent. *)
Example headers_none_raises :
  @PentaApi.get env_up [PyStr "/x"] {[ "headers" := PyNone ]} st_fresh =
  (Raise (TypeError "'NoneType' object does not support item assignment"),
   tick st_fresh).
Proof. vm_compute. reflexivity. Qed.

(** A caller who passes a keyword [method] gets a [TypeError] before the
    clock is read: nothing is renewed and nothing is sent, on a session
    whose access token has expired too. *)
Example keyword_method_raises :
  @PentaApi.get env_up [PyStr "/x"] kw_method st_stale =
  (Raise (TypeError
     "PentaApi._request() got multiple values for argument 'method'"),
   st_stale).
Proof. vm_compute. reflexivity. Qed.

(** A login answered with a [null] token returns, and the next request
    goes out with the header [Bearer None]. *)
Example null_token_is_sent :
  let st := snd (@PentaApi.__init__ env_null_token "a@b.com" "k" start) in
  fst (@PentaApi.__init__ env_null_token "a@b.com" "k" start) = Ret tt /\
  token (this st) = PyNone /\
  log (snd (@PentaApi.get env_null_token [PyStr "/x"] ∅ st)) =
  [login_call (blank "a@b.com" "k");
   requests_request "GET" [PyStr "/x"]
     {[ "headers" :=
          PyDict (<[ "Content-type" := PyStr "application/json" ]>
                    {[ "Authorization" := PyStr "Bearer None" ]}) ]}].
Proof. vm_compute. repeat split; reflexivity. Qed.

(** * Further properties of the class *)

Section Invariants.
Context {E : Env}.

(** What a verb call leaves in the instance and on the clock: what
    [renew] leaves when the keyword arguments are accepted, and what was
    there otherwise. *)
Lemma verb_this_ticks (v : Verb) args kwargs (st : State) :
  (accepted kwargs ->
   this (snd (verb_call v args kwargs st)) = this (snd (renew st)) /\
   ticks (snd (verb_call v args kwargs st)) = ticks (snd (renew st))) /\
  (~ accepted kwargs -> snd (verb_call v args kwargs st) = st).
Proof.
  split.
  - intros Ha. rewrite (verb_call_eq v args kwargs Ha).
    apply request_this_ticks.
  - intros Hn. destruct (verb_call_rejected v args kwargs Hn) as [msg ->].
    reflexivity.
Qed.

(** A field read from an answer that holds no [null] is not [None]. *)
Lemma subscript_not_none (past : list Call) url headers body data k v :
  never_null ->
  json (transport past (requests_post url headers body)) = inr data ->
  subscript data k = inr v ->
  is_none v = false.
Proof.
  intros Hnn Hj Hv.
  destruct data as [| | | | | |d]; simpl in Hv; try discriminate.
  destruct (d !! k) as [x|] eqn:Hk; [|discriminate].
  injection Hv as ->.
  destruct v; try reflexivity.
  exfalso. exact (Hnn _ _ _ _ _ _ Hj Hk).
Qed.

Lemma login_populated (st : State) :
  never_null ->
  (populated (this st) = true ->
   populated (this (snd (PentaApi._login st))) = true) /\
  (fst (PentaApi._login st) = Ret tt ->
   populated (this (snd (PentaApi._login st))) = true).
Proof.
  intros Hnn. rewrite login_eq. cbv zeta. unfold login_call.
  set (response := transport (log st) _).
  destruct (status_code response =? 200); simpl;
    [|split; [auto | discriminate]].
  destruct (json response) as [x|data] eqn:Hj; simpl;
    [split; [auto | discriminate]|].
  pose proof (fun k v => subscript_not_none _ _ _ _ data k v Hnn Hj) as Hf.
  destruct (subscript data "token") as [x|t] eqn:Ht; simpl;
    [split; [auto | discriminate]|].
  apply Hf in Ht.
  destruct (subscript data "expires") as [x|e] eqn:He; simpl.
  { split; [|discriminate]. unfold populated. simpl. rewrite Ht.
    destruct (is_none (token (this st))); [discriminate|]. auto. }
  apply Hf in He.
  destruct (subscript data "refresh_token") as [x|rt] eqn:Hrt; simpl.
  { split; [|discriminate]. unfold populated. simpl. rewrite Ht, He.
    destruct (is_none (token (this st))); [discriminate|].
    destruct (is_none (expires (this st))); [discriminate|]. auto. }
  apply Hf in Hrt.
  destruct (subscript data "refresh_expires") as [x|re] eqn:Hre; simpl.
  { split; [|discriminate]. unfold populated. simpl. rewrite Ht, He, Hrt.
    destruct (is_none (token (this st))); [discriminate|].
    destruct (is_none (expires (this st))); [discriminate|].
    destruct (is_none (refresh_token (this st))); [discriminate|]. auto. }
  apply Hf in Hre.
  unfold populated. simpl. rewrite Ht, He, Hrt, Hre. auto.
Qed.

Lemma refresh_populated (st : State) :
  never_null ->
  populated (this st) = true ->
  populated (this (snd (PentaApi._refresh st))) = true.
Proof.
  intros Hnn Hp.
  destruct (fst (PentaApi._is_refresh_expired st)) as [[|]|e] eqn:H.
  - rewrite (refresh_relogin st H).
    apply (proj1 (login_populated (tick st) Hnn)). exact Hp.
  - rewrite (refresh_endpoint_eq st H). cbv zeta. unfold refresh_call.
    set (response := transport (log st) _).
    destruct (status_code response =? 200); simpl; [|exact Hp].
    destruct (json response) as [x|data] eqn:Hj; simpl; [exact Hp|].
    pose proof (fun k v => subscript_not_none _ _ _ _ data k v Hnn Hj)
      as Hf.
    destruct (subscript data "token") as [x|t] eqn:Ht; simpl; [exact Hp|].
    apply Hf in Ht.
    destruct (subscript data "expires") as [x|x] eqn:He; simpl;
      unfold populated in *; simpl.
    + rewrite Ht.
      destruct (is_none (token (this st))); [discriminate|]. exact Hp.
    + apply Hf in He. rewrite Ht, He.
      destruct (is_none (token (this st))); [discriminate|].
      destruct (is_none (expires (this st))); [discriminate|]. exact Hp.
  - rewrite (refresh_raise st e H). exact Hp.
Qed.

Lemma renew_populated (st : State) :
  never_null ->
  populated (this st) = true ->
  populated (this (snd (renew st))) = true.
Proof.
  intros Hnn Hp.
  destruct (fst (PentaApi._is_expired st)) as [[|]|e] eqn:H.
  - rewrite (renew_stale st H). apply (refresh_populated _ Hnn). exact Hp.
  - rewrite (renew_fresh st H). exact Hp.
  - rewrite (renew_raise st e H). exact Hp.
Qed.

Lemma exec_populated (o : Op) (st : State) :
  never_null ->
  populated (this st) = true -> populated (this (exec o st)) = true.
Proof.
  intros Hnn Hp. destruct o as [| | | |v args kwargs]; simpl.
  - apply (proj1 (login_populated st Hnn)). exact Hp.
  - apply (refresh_populated _ Hnn). exact Hp.
  - destruct (is_expired_frame st) as [-> _]. exact Hp.
  - destruct (is_refresh_expired_frame st) as [-> _]. exact Hp.
  - destruct (accepted_dec kwargs) as [Ha|Hn].
    + destruct (proj1 (verb_this_ticks v args kwargs st) Ha) as [-> _].
      apply (renew_populated _ Hnn). exact Hp.
    + rewrite (proj2 (verb_this_ticks v args kwargs st) Hn). exact Hp.
Qed.

(** Replacing the two headers twice is replacing them once, with the
    later token. *)
Lemma outgoing_headers_twice (tok tok' : pyobj) (h : gmap string pyobj) :
  outgoing_headers tok' (outgoing_headers tok h) = outgoing_headers tok' h.
Proof.
  unfold outgoing_headers.
  rewrite (insert_insert_ne _ "Authorization" "Content-type")
    by discriminate.
  rewrite !insert_insert_eq. reflexivity.
Qed.

(** A call given keyword arguments in which the two headers are written
    already does what the call given the original ones does. *)
Lemma request_written (v : Verb) args kwargs h (tok : pyobj) (st : State) :
  caller_headers kwargs = Some h ->
  PentaApi._request (verb_method v) args
    (<[ "headers" := PyDict (outgoing_headers tok h) ]> kwargs) st
  = PentaApi._request (verb_method v) args kwargs st.
Proof.
  intros Hh.
  set (written := <[ "headers" := PyDict (outgoing_headers tok h) ]> kwargs).
  assert (Hw : caller_headers written = Some (outgoing_headers tok h)).
  { unfold caller_headers, written. rewrite lookup_insert_eq. reflexivity. }
  rewrite !request_renew.
  destruct (renew st) as [[[]|e] st1]; [|reflexivity].
  rewrite (send_eq v args written _ st1 Hw).
  rewrite (send_eq v args kwargs h st1 Hh).
  unfold outgoing_call, written.
  rewrite insert_insert_eq, outgoing_headers_twice. reflexivity.
Qed.
End Invariants.

Lemma env_up_never_null : @never_null env_up.
Proof.
  intros past url headers body d k. simpl. unfold mock_transport.
  destruct (String.eqb url LOGIN_URL);
    [|destruct (String.eqb url REFRESH_URL)]; simpl;
    intros [= <-] Hk.
  - unfold login_fields in Hk.
    repeat (apply lookup_insert_Some in Hk;
            destruct Hk as [[_ Hk]|[_ Hk]]; [discriminate|]).
    apply lookup_singleton_Some in Hk. destruct Hk as [_ Hk]. discriminate.
  - unfold refresh_fields in Hk.
    repeat (apply lookup_insert_Some in Hk;
            destruct Hk as [[_ Hk]|[_ Hk]]; [discriminate|]).
    apply lookup_singleton_Some in Hk. destruct Hk as [_ Hk]. discriminate.
  - apply lookup_singleton_Some in Hk. destruct Hk as [_ Hk]. discriminate.
Qed.

Section Further.
Context {E : Env}.

(** X1. When the login endpoint answers 200 with an object that lacks
    one of the four fields, [_login] raises [KeyError] for the first
    missing one, in the order [token], [expires], [refresh_token],
    [refresh_expires], and the fields before it have been assigned
    already: the session is left partly replaced. *)
Theorem X1_login_missing_field (st : State) (d : gmap string pyobj) :
  let response := transport (log st) (login_call (this st)) in
  let called a := mkState a (log st ++ [login_call (this st)]) (ticks st) in
  status_code response = 200 ->
  json response = inr (PyDict d) ->
  (d !! "token" = None ->
   PentaApi._login st = (Raise (KeyError "token"), called (this st))) /\
  (forall t,
      d !! "token" = Some t ->
      d !! "expires" = None ->
      PentaApi._login st =
      (Raise (KeyError "expires"), called (with_token t (this st)))) /\
  (forall t e,
      d !! "token" = Some t ->
      d !! "expires" = Some e ->
      d !! "refresh_token" = None ->
      PentaApi._login st =
      (Raise (KeyError "refresh_token"),
       called (with_expires e (with_token t (this st))))) /\
  (forall t e rt,
      d !! "token" = Some t ->
      d !! "expires" = Some e ->
      d !! "refresh_token" = Some rt ->
      d !! "refresh_expires" = None ->
      PentaApi._login st =
      (Raise (KeyError "refresh_expires"),
       called (with_refresh_token rt
                 (with_expires e (with_token t (this st)))))).
Proof.
  intros response called Hs Hd. apply Z.eqb_eq in Hs.
  rewrite login_eq. cbv zeta. fold response. rewrite Hs, Hd. simpl.
  split; [|split; [|split]].
  - intros ->. reflexivity.
  - intros t -> ->. reflexivity.
  - intros t e -> -> ->. reflexivity.
  - intros t e rt -> -> -> ->. reflexivity.
Qed.

(** X2. When the refresh endpoint answers 200 with an object that has no
    [token], [_refresh] raises [KeyError('token')] and the session is as
    it was; with [token] but no [expires] it raises [KeyError('expires')]
    after having replaced the token, so the new token is kept with the
    old expiry. *)
Theorem X2_refresh_missing_field (st : State) (d : gmap string pyobj) :
  let response := transport (log st) (refresh_call (this st)) in
  let called a :=
    mkState a (log st ++ [refresh_call (this st)]) (S (ticks st)) in
  fst (PentaApi._is_refresh_expired st) = Ret false ->
  status_code response = 200 ->
  json response = inr (PyDict d) ->
  (d !! "token" = None ->
   PentaApi._refresh st = (Raise (KeyError "token"), called (this st))) /\
  (forall t,
      d !! "token" = Some t ->
      d !! "expires" = None ->
      PentaApi._refresh st =
      (Raise (KeyError "expires"), called (with_token t (this st))) /\
      token (this (snd (PentaApi._refresh st))) = t /\
      expires (this (snd (PentaApi._refresh st))) = expires (this st)).
Proof.
  intros response called H Hs Hd. apply Z.eqb_eq in Hs.
  rewrite (refresh_endpoint_eq st H). cbv zeta. fold response.
  rewrite Hs, Hd. simpl.
  split.
  - intros ->. reflexivity.
  - intros t -> ->. repeat split; reflexivity.
Qed.

(** X3. When an expiry check cannot read its timestamp (the attribute is
    not a string, or [strptime] raises), a verb call with keyword
    arguments it accepts ends with that exception before anything is
    sent: no call to [requests] is made and no attribute changes.  This
    holds for the access check, and for the refresh check that follows
    an access check which returned [True]. *)
Theorem X3_unreadable_expiry_sends_nothing (v : Verb) (args : list pyobj)
    (kwargs : gmap string pyobj) (st : State) (e : exn) :
  accepted kwargs ->
  fst (PentaApi._is_expired st) = Raise e \/
  (fst (PentaApi._is_expired st) = Ret true /\
   fst (PentaApi._is_refresh_expired (snd (PentaApi._is_expired st)))
   = Raise e) ->
  let st' := snd (verb_call v args kwargs st) in
  fst (verb_call v args kwargs st) = Raise e /\
  this st' = this st /\
  log st' = log st.
Proof.
  intros Ha [H|[H Hr]] st'; subst st';
    rewrite (verb_call_eq v args kwargs Ha), request_renew.
  - rewrite (renew_raise st e H). auto.
  - rewrite (is_expired_ret st true H) in Hr. simpl in Hr.
    rewrite (renew_stale st H), (refresh_raise (tick st) e Hr). auto.
Qed.

(** X4. A verb call makes at most two calls to [requests]: at most one
    [requests.post], which is the login call or the refresh call for the
    attributes the instance had, and after it at most one
    [requests.request], the caller's.  It keeps the earlier entries of the
    log and reads the clock at most twice. *)
Theorem X4_at_most_two_calls (v : Verb) (args : list pyobj)
    (kwargs : gmap string pyobj) (st : State) :
  let st' := snd (verb_call v args kwargs st) in
  exists posts requests : list Call,
    log st' = log st ++ posts ++ requests /\
    (posts = [] \/ posts = [login_call (this st)] \/
     posts = [refresh_call (this st)]) /\
    (requests = [] \/
     exists kw, requests = [requests_request (verb_method v) args kw]) /\
    (ticks st <= ticks st' <= S (S (ticks st)))%nat.
Proof.
  intros st'. subst st'.
  destruct (accepted_dec kwargs) as [Ha|Hn].
  2:{ rewrite (proj2 (verb_this_ticks v args kwargs st) Hn).
      exists [], []. rewrite app_nil_r. repeat split; auto; lia. }
  rewrite (verb_call_eq v args kwargs Ha), request_renew.
  destruct (renew_shape st) as [Hl Ht].
  assert (Hposts : exists posts,
             log (snd (renew st)) = log st ++ posts /\
             (posts = [] \/ posts = [login_call (this st)] \/
              posts = [refresh_call (this st)])).
  { destruct Hl as [Hl|[Hl|Hl]]; rewrite Hl.
    - exists []. rewrite app_nil_r. auto.
    - eexists. split; [reflexivity|auto].
    - eexists. split; [reflexivity|auto]. }
  destruct Hposts as (posts & Hlog & Hposts).
  destruct (renew st) as [[[]|e] st1]; simpl in *.
  - destruct (send_frame (verb_method v) args kwargs st1)
      as (_ & Hticks & Hs).
    rewrite Hticks.
    destruct Hs as [Hs|[kw Hs]]; rewrite Hs, Hlog.
    + exists posts, []. rewrite app_nil_r. auto.
    + exists posts, [requests_request (verb_method v) args kw].
      rewrite app_assoc. eauto 6.
  - exists posts, []. rewrite app_nil_r. auto.
Qed.

(** X5. When the caller passes as [headers] an object that is not a
    dictionary ([None], a string, a number, a list), the verb call never
    returns and never reaches [requests.request]: it raises, after
    whatever call the renewal of the token made.  With keyword arguments
    the verb accepts and a fresh access token the exception is the
    [TypeError] of the item assignment and nothing at all is sent. *)
Theorem X5_headers_not_a_dict (v : Verb) (args : list pyobj)
    (kwargs : gmap string pyobj) (st : State) :
  caller_headers kwargs = None ->
  let st' := snd (verb_call v args kwargs st) in
  (exists e, fst (verb_call v args kwargs st) = Raise e) /\
  (log st' = log st \/
   log st' = log st ++ [login_call (this st)] \/
   log st' = log st ++ [refresh_call (this st)]) /\
  (accepted kwargs ->
   fst (PentaApi._is_expired st) = Ret false ->
   exists msg,
     verb_call v args kwargs st = (Raise (TypeError msg), tick st)).
Proof.
  intros Hh st'. subst st'.
  destruct (accepted_dec kwargs) as [Ha|Hn].
  2:{ destruct (verb_call_rejected v args kwargs Hn) as [msg Hr].
      rewrite Hr. simpl. split; [eauto|]. split; [auto|].
      intros Ha. contradiction. }
  rewrite (verb_call_eq v args kwargs Ha), request_renew.
  split; [|split].
  - destruct (renew st) as [[[]|e] st1]; simpl; [|eauto].
    unfold send, bind.
    destruct (set_headers_not_dict kwargs st1 Hh) as [msg ->]. eauto.
  - destruct (renew_shape st) as [Hl _].
    destruct (renew st) as [[[]|e] st1]; simpl in *; [|exact Hl].
    unfold send, bind.
    destruct (set_headers_not_dict kwargs st1 Hh) as [msg ->]. exact Hl.
  - intros _ H. rewrite (renew_fresh st H). unfold send, bind.
    destruct (set_headers_not_dict kwargs (tick st) Hh) as [msg ->]. eauto.
Qed.
End Further.

Section Sessions.
Context {E : Env}.

(** X6. As long as the endpoints never answer with a [null] field, an
    instance whose construction returned has none of its four session
    attributes [None], and no later operation sets one back to [None]:
    after any sequence of logins, refreshes, checks and verb calls,
    whether they return or raise, the four still hold what an endpoint
    sent. *)
Theorem X6_session_stays_populated (email0 api_key0 : string)
    (st : State) (ops : list Op) :
  never_null ->
  fst (PentaApi.__init__ email0 api_key0 st) = Ret tt ->
  let constructed := snd (PentaApi.__init__ email0 api_key0 st) in
  populated (this constructed) = true /\
  populated (this (exec_all ops constructed)) = true /\
  token (this (exec_all ops constructed)) <> PyNone.
Proof.
  intros Hnn H constructed.
  assert (Hc : populated (this constructed) = true).
  { subst constructed. unfold PentaApi.__init__, bind, update_self in *.
    simpl in *. apply (proj2 (login_populated _ Hnn)). exact H. }
  assert (Hall : forall ops s,
             populated (this s) = true ->
             populated (this (exec_all ops s)) = true).
  { clear - Hnn. intros ops. induction ops as [|o ops IH]; intros s Hs.
    - exact Hs.
    - simpl. apply IH, (exec_populated _ _ Hnn), Hs. }
  specialize (Hall ops constructed Hc).
  split; [exact Hc|]. split; [exact Hall|].
  unfold populated in Hall. intros Hnone. rewrite Hnone in Hall.
  discriminate Hall.
Qed.

(** X7. The expiry checks are monotone in time: when a check returns
    [True] at one reading of the clock, it returns [True] for the same
    stored timestamp at any reading that is not earlier. *)
Theorem X7_expired_stays_expired (st st' : State) :
  utcnow (ticks st) <= utcnow (ticks st') ->
  (expires (this st') = expires (this st) ->
   fst (PentaApi._is_expired st) = Ret true ->
   fst (PentaApi._is_expired st') = Ret true) /\
  (refresh_expires (this st') = refresh_expires (this st) ->
   fst (PentaApi._is_refresh_expired st) = Ret true ->
   fst (PentaApi._is_refresh_expired st') = Ret true).
Proof.
  intros Hle.
  assert (Hmono : forall x,
             expired_at x (utcnow (ticks st)) = true ->
             expired_at x (utcnow (ticks st')) = true).
  { intros x. rewrite !expired_at_true. lia. }
  split; intros Heq.
  - rewrite !is_expired_eq, Heq.
    destruct (strptime_of (expires (this st)) PentaApi.FORMAT) as [e|x];
      simpl; [discriminate|].
    intros [= Hx]. rewrite (Hmono x Hx). reflexivity.
  - rewrite !is_refresh_expired_eq, Heq.
    destruct (strptime_of (refresh_expires (this st)) PentaApi.FORMAT)
      as [e|x]; simpl; [discriminate|].
    intros [= Hx]. rewrite (Hmono x Hx). reflexivity.
Qed.

(** X8. A refresh serves the calls that follow.  After a verb call that
    refreshed the token (status 200, body with [token] and [expires]),
    when the new expiry is at least five seconds ahead of the clock at its
    next reading, the next verb call makes no call to the login or the
    refresh endpoint: it sends the caller's request with the new token and
    leaves the attributes as the first call left them.  (Both calls have
    keyword arguments the verbs accept, with headers absent or a
    dictionary.) *)
Theorem X8_refresh_serves_next_call (v1 v2 : Verb)
    (args1 args2 : list pyobj) (kw1 kw2 : gmap string pyobj)
    (h1 h2 : gmap string pyobj) (st : State) (d : gmap string pyobj)
    (t : pyobj) (e : string) (x : Z) :
  accepted kw1 ->
  accepted kw2 ->
  fst (PentaApi._is_expired st) = Ret true ->
  fst (PentaApi._is_refresh_expired (snd (PentaApi._is_expired st)))
  = Ret false ->
  let response := transport (log st) (refresh_call (this st)) in
  status_code response = 200 ->
  json response = inr (PyDict d) ->
  d !! "token" = Some t ->
  d !! "expires" = Some (PyStr e) ->
  strptime e PentaApi.FORMAT = inr x ->
  timedelta_seconds 5 <= x - utcnow (S (S (ticks st))) ->
  caller_headers kw1 = Some h1 ->
  caller_headers kw2 = Some h2 ->
  let st1 := snd (verb_call v1 args1 kw1 st) in
  let first :=
    requests_request (verb_method v1) args1
      (<[ "headers" := PyDict (outgoing_headers t h1) ]> kw1) in
  let second :=
    requests_request (verb_method v2) args2
      (<[ "headers" := PyDict (outgoing_headers t h2) ]> kw2) in
  log st1 = log st ++ [refresh_call (this st); first] /\
  verb_call v2 args2 kw2 st1 =
  (Ret (transport (log st1) second),
   mkState (this st1) (log st1 ++ [second]) (S (ticks st1))).
Proof.
  intros Ha1 Ha2 H Hr response Hs Hd Ht He Hx Hahead Hh1 Hh2 st1 first
    second.
  rewrite (is_expired_ret st true H) in Hr. simpl in Hr.
  assert (H1 : verb_call v1 args1 kw1 st =
               (Ret (transport (log st ++ [refresh_call (this st)]) first),
                mkState
                  (with_expires (PyStr e) (with_token t (this st)))
                  (log st ++ [refresh_call (this st); first])
                  (S (S (ticks st))))).
  { rewrite (verb_call_eq v1 args1 kw1 Ha1), (request_stale _ _ _ st H).
    rewrite (refresh_success (tick st) d t (PyStr e) Hr Hs Hd Ht He).
    rewrite (send_eq v1 args1 kw1 h1 _ Hh1). simpl.
    unfold logged, outgoing_call. simpl. rewrite <- app_assoc. reflexivity. }
  subst st1. rewrite H1. simpl. split; [reflexivity|].
  set (st1 := mkState _ _ _).
  assert (Hfresh : fst (PentaApi._is_expired st1) = Ret false).
  { rewrite is_expired_eq. simpl. rewrite Hx. simpl.
    unfold expired_at, PentaApi.DELTA.
    destruct (Z.ltb_spec x (utcnow (S (S (ticks st))))) as [Hlt|_].
    - unfold timedelta_seconds in Hahead. lia.
    - apply f_equal. apply Z.ltb_ge. exact Hahead. }
  rewrite (verb_call_eq v2 args2 kw2 Ha2), (request_fresh _ _ _ st1 Hfresh).
  rewrite (send_eq v2 args2 kw2 h2 _ Hh2). reflexivity.
Qed.

(** X9. A verb call, with keyword arguments it accepts, made when both
    tokens are expired and the login endpoint answers anything but 200
    ends with [ValueError('Credentials not valid')] after the one login
    call: the caller's request is not sent and the session attributes,
    expired as they are, stay in place. *)
Theorem X9_failed_relogin_stops_call (v : Verb) (args : list pyobj)
    (kwargs : gmap string pyobj) (st : State) :
  accepted kwargs ->
  fst (PentaApi._is_expired st) = Ret true ->
  fst (PentaApi._is_refresh_expired (snd (PentaApi._is_expired st)))
  = Ret true ->
  status_code (transport (log st) (login_call (this st))) <> 200 ->
  verb_call v args kwargs st =
  (Raise (ValueError "Credentials not valid"),
   mkState (this st) (log st ++ [login_call (this st)])
           (S (S (ticks st)))).
Proof.
  intros Ha H Hr Hs. rewrite (is_expired_ret st true H) in Hr. simpl in Hr.
  rewrite (verb_call_eq v args kwargs Ha), (request_stale _ _ _ st H).
  rewrite (refresh_relogin (tick st) Hr).
  rewrite (login_failure (tick (tick st)) Hs). reflexivity.
Qed.

(** X10. Among the calls whose keyword arguments the verbs accept, what a
    verb call does to the instance does not depend on the request: the
    attributes and the number of clock reads after the call are the same
    for every verb, every argument list and every such set of keyword
    arguments, the caller's headers included.  (A call with a keyword
    [self] or [method] raises at once and leaves the instance as it
    was.) *)
Theorem X10_session_independent_of_request (v v' : Verb)
    (args args' : list pyobj) (kwargs kwargs' : gmap string pyobj)
    (st : State) :
  accepted kwargs ->
  accepted kwargs' ->
  this (snd (verb_call v args kwargs st))
  = this (snd (verb_call v' args' kwargs' st)) /\
  ticks (snd (verb_call v args kwargs st))
  = ticks (snd (verb_call v' args' kwargs' st)) /\
  this (snd (verb_call v args kwargs st)) = this (snd (renew st)).
Proof.
  intros Ha Ha'.
  destruct (proj1 (verb_this_ticks v args kwargs st) Ha) as [-> ->].
  destruct (proj1 (verb_this_ticks v' args' kwargs' st) Ha') as [-> ->].
  auto.
Qed.

(** X11. A verb call given keyword arguments whose [headers] dictionary
    already holds the two headers, with the values the class writes for
    any token, does exactly what the call given the dictionary without
    them does: same outcome, same call sent, same state.  The values
    found under the two keys are overwritten. *)
Theorem X11_written_headers_can_be_reused (v : Verb) (args : list pyobj)
    (kwargs : gmap string pyobj) (h : gmap string pyobj)
    (tok : pyobj) (st : State) :
  caller_headers kwargs = Some h ->
  let written :=
    <[ "headers" := PyDict (outgoing_headers tok h) ]> kwargs in
  verb_call v args written st = verb_call v args kwargs st.
Proof.
  intros Hh written.
  pose proof (request_written v args kwargs h tok st Hh) as Hreq.
  fold written in Hreq.
  destruct v; simpl in *;
    unfold PentaApi.get, PentaApi.post, PentaApi.put, PentaApi.delete,
      bound_by_position, bind, written;
    rewrite !lookup_insert_ne by discriminate;
    (destruct (kwargs !! "self"); [reflexivity|]);
    (destruct (kwargs !! "method"); [reflexivity|]);
    simpl; exact Hreq.
Qed.

(** X12. A verb call replaces [refresh_token] and [refresh_expires] only
    by logging in again: unless the access check and then the refresh
    check both returned [True], the two attributes are what they were
    before the call, whatever the endpoints answered. *)
Theorem X12_refresh_pair_changes_only_on_relogin (v : Verb)
    (args : list pyobj) (kwargs : gmap string pyobj) (st : State) :
  ~ (fst (PentaApi._is_expired st) = Ret true /\
     fst (PentaApi._is_refresh_expired (snd (PentaApi._is_expired st)))
     = Ret true) ->
  let st' := snd (verb_call v args kwargs st) in
  refresh_token (this st') = refresh_token (this st) /\
  refresh_expires (this st') = refresh_expires (this st).
Proof.
  intros Hn st'. subst st'.
  destruct (accepted_dec kwargs) as [Ha|Hr];
    [|rewrite (proj2 (verb_this_ticks v args kwargs st) Hr); auto].
  destruct (proj1 (verb_this_ticks v args kwargs st) Ha) as [-> _].
  destruct (fst (PentaApi._is_expired st)) as [[|]|e] eqn:H.
  - rewrite (renew_stale st H).
    rewrite (is_expired_ret st true H) in Hn. simpl in Hn.
    destruct (fst (PentaApi._is_refresh_expired (tick st)))
      as [[|]|e] eqn:Hr.
    + exfalso. apply Hn. auto.
    + destruct (refresh_endpoint_frame (tick st) Hr)
        as (_ & _ & Hrt & Hre & _). auto.
    + rewrite (refresh_raise (tick st) e Hr). auto.
  - rewrite (renew_fresh st H). auto.
  - rewrite (renew_raise st e H). auto.
Qed.

(** X13. A verb called with a keyword argument named [self] or [method]
    raises [TypeError] before anything else happens: the clock is not
    read, the token is not renewed even when it has expired, nothing is
    sent, and the instance is as it was. *)
Theorem X13_keyword_self_or_method_raises (v : Verb) (args : list pyobj)
    (kwargs : gmap string pyobj) (st : State) :
  is_Some (kwargs !! "self") \/ is_Some (kwargs !! "method") ->
  exists msg, verb_call v args kwargs st = (Raise (TypeError msg), st).
Proof.
  intros H.
  assert (Hn : ~ accepted kwargs).
  { intros [Hs Hm]. destruct H as [[x H]|[x H]]; congruence. }
  destruct (verb_call_rejected v args kwargs Hn) as [msg Hr].
  exists msg. apply Hr.
Qed.

(** X14. When an endpoint answers 200 with a body that cannot be decoded,
    or that decodes to something other than an object, [_login] and
    [_refresh] raise before any assignment: the exception of
    [response.json()] in the first case, a [TypeError] from [data['token']]
    in the second.  The call has been made and the session is as it
    was. *)
Theorem X14_body_not_an_object (st : State) :
  (let response := transport (log st) (login_call (this st)) in
   let st' := mkState (this st) (log st ++ [login_call (this st)])
                      (ticks st) in
   status_code response = 200 ->
   (forall x, json response = inl x ->
              PentaApi._login st = (Raise x, st')) /\
   (forall data, json response = inr data ->
                 (forall d, data <> PyDict d) ->
                 exists msg,
                   PentaApi._login st = (Raise (TypeError msg), st'))) /\
  (let response := transport (log st) (refresh_call (this st)) in
   let st' := mkState (this st) (log st ++ [refresh_call (this st)])
                      (S (ticks st)) in
   fst (PentaApi._is_refresh_expired st) = Ret false ->
   status_code response = 200 ->
   (forall x, json response = inl x ->
              PentaApi._refresh st = (Raise x, st')) /\
   (forall data, json response = inr data ->
                 (forall d, data <> PyDict d) ->
                 exists msg,
                   PentaApi._refresh st = (Raise (TypeError msg), st'))).
Proof.
  assert (Hsub : forall data, (forall d, data <> PyDict d) ->
                   exists msg, subscript data "token" = inl (TypeError msg)).
  { intros [| | | | | |d] Hd; simpl; eauto. exfalso. apply (Hd d).
    reflexivity. }
  split.
  - intros response st' Hs. apply Z.eqb_eq in Hs.
    rewrite login_eq. cbv zeta. fold response. rewrite Hs. split.
    + intros x ->. reflexivity.
    + intros data -> Hd. destruct (Hsub data Hd) as [msg ->]. eauto.
  - intros response st' H Hs. apply Z.eqb_eq in Hs.
    rewrite (refresh_endpoint_eq st H). cbv zeta. fold response.
    rewrite Hs. split.
    + intros x ->. reflexivity.
    + intros data -> Hd. destruct (Hsub data Hd) as [msg ->]. eauto.
Qed.
End Sessions.

(** ** The further properties on concrete runs *)

Lemma X1_witness :
  let st := mkState (blank "a@b.com" "k") [] 0 in
  status_code (@transport env_token_only (log st) (login_call (this st)))
  = 200 /\
  @PentaApi._login env_token_only st =
  (Raise (KeyError "expires"),
   mkState (mkAttrs "a@b.com" "k" (PyStr "T9") PyNone PyNone PyNone)
           [login_call (blank "a@b.com" "k")] 0).
Proof.
  intros st.
  assert (Hs : status_code
                 (@transport env_token_only (log st) (login_call (this st)))
               = 200) by reflexivity.
  split; [exact Hs|].
  refine (proj1 (proj2 (@X1_login_missing_field env_token_only st
                          {[ "token" := PyStr "T9" ]} Hs eq_refl))
            (PyStr "T9") _ _); vm_compute; reflexivity.
Defined.

Lemma X2_witness :
  fst (@PentaApi._is_refresh_expired env_token_only st_stale) = Ret false /\
  status_code (@transport env_token_only (log st_stale)
                 (@refresh_call env_token_only (this st_stale))) = 200 /\
  this (snd (@PentaApi._refresh env_token_only st_stale)) =
  mkAttrs "a@b.com" "k" (PyStr "T9") (PyStr "20280101000000")
          (PyStr "R1") (PyStr "20300101000000") /\
  fst (@PentaApi._refresh env_token_only st_stale)
  = Raise (KeyError "expires").
Proof.
  assert (H : fst (@PentaApi._is_refresh_expired env_token_only st_stale)
              = Ret false) by (vm_compute; reflexivity).
  assert (Hs : status_code (@transport env_token_only (log st_stale)
                              (@refresh_call env_token_only
                                 (this st_stale))) = 200)
    by reflexivity.
  split; [exact H|]. split; [exact Hs|].
  assert (Ht : ({[ "token" := PyStr "T9" ]} : gmap string pyobj) !! "token"
               = Some (PyStr "T9")) by (vm_compute; reflexivity).
  assert (He : ({[ "token" := PyStr "T9" ]} : gmap string pyobj)
               !! "expires" = None) by (vm_compute; reflexivity).
  destruct (proj2 (@X2_refresh_missing_field env_token_only st_stale
                     {[ "token" := PyStr "T9" ]} H Hs eq_refl)
              (PyStr "T9") Ht He) as (Heq & _ & _).
  rewrite Heq. split; reflexivity.
Defined.

Lemma X3_witness :
  accepted ∅ /\
  @PentaApi.get env_up [PyStr "/x"] ∅ st_garbled =
  (Raise (ValueError
            "time data 'tomorrow' does not match format '%Y%m%d%H%M%S'"),
   st_garbled) /\
  fst (@PentaApi.get env_up [PyStr "/x"] ∅ st_refresh_garbled) =
  Raise (ValueError
           "time data 'tomorrow' does not match format '%Y%m%d%H%M%S'") /\
  log (snd (@PentaApi.get env_up [PyStr "/x"] ∅ st_refresh_garbled)) = [].
Proof.
  set (e := ValueError
              "time data 'tomorrow' does not match format '%Y%m%d%H%M%S'").
  assert (Ha : accepted ∅) by (split; reflexivity).
  assert (H1 : fst (@PentaApi._is_expired env_up st_garbled) = Raise e)
    by (vm_compute; reflexivity).
  assert (H2 : fst (@PentaApi._is_expired env_up st_refresh_garbled)
               = Ret true /\
               fst (@PentaApi._is_refresh_expired env_up
                      (snd (@PentaApi._is_expired env_up
                              st_refresh_garbled))) = Raise e)
    by (vm_compute; split; reflexivity).
  destruct (@X3_unreadable_expiry_sends_nothing env_up GET [PyStr "/x"] ∅
              st_garbled e Ha (or_introl H1)) as (_ & _ & _).
  destruct (@X3_unreadable_expiry_sends_nothing env_up GET [PyStr "/x"] ∅
              st_refresh_garbled e Ha (or_intror H2))
    as (Hraise & _ & Hlog).
  split; [exact Ha|].
  split; [vm_compute; reflexivity|]. split; [exact Hraise | exact Hlog].
Defined.

Lemma X5_witness :
  caller_headers {[ "headers" := PyNone ]} = None /\
  (exists e,
      fst (@PentaApi.post env_up [PyStr "/x"] {[ "headers" := PyNone ]}
             st_stale) = Raise e) /\
  log (snd (@PentaApi.post env_up [PyStr "/x"] {[ "headers" := PyNone ]}
              st_stale))
  = [@refresh_call env_up (this st_stale)].
Proof.
  assert (H : caller_headers {[ "headers" := PyNone ]} = None)
    by reflexivity.
  split; [exact H|].
  destruct (@X5_headers_not_a_dict env_up POST [PyStr "/x"]
              {[ "headers" := PyNone ]} st_stale H) as (Hraise & _ & _).
  split; [exact Hraise|]. vm_compute. reflexivity.
Defined.

Lemma X6_witness :
  let ops := [op_verb GET [PyStr "/x"] ∅; op_refresh;
              op_verb POST [] {[ "headers" := PyNone ]}; op_login;
              op_verb PUT [] kw_method] in
  @never_null env_up /\
  fst (@PentaApi.__init__ env_up "a@b.com" "k" start) = Ret tt /\
  populated
    (this (@exec_all env_up ops
             (snd (@PentaApi.__init__ env_up "a@b.com" "k" start))))
  = true.
Proof.
  intros ops.
  assert (H : fst (@PentaApi.__init__ env_up "a@b.com" "k" start) = Ret tt)
    by (vm_compute; reflexivity).
  split; [exact env_up_never_null|]. split; [exact H|].
  exact (proj1 (proj2 (@X6_session_stays_populated env_up "a@b.com" "k"
                         start ops env_up_never_null H))).
Defined.

Lemma X7_witness :
  @utcnow env_clock_runs (ticks st_closing)
  <= @utcnow env_clock_runs (ticks (tick st_closing)) /\
  fst (@PentaApi._is_expired env_clock_runs st_closing) = Ret true /\
  fst (@PentaApi._is_expired env_clock_runs (tick st_closing)) = Ret true.
Proof.
  assert (Hle : @utcnow env_clock_runs (ticks st_closing)
                <= @utcnow env_clock_runs (ticks (tick st_closing)))
    by (vm_compute; discriminate).
  assert (H : fst (@PentaApi._is_expired env_clock_runs st_closing)
              = Ret true) by (vm_compute; reflexivity).
  split; [exact Hle|]. split; [exact H|].
  exact (proj1 (@X7_expired_stays_expired env_clock_runs st_closing
                  (tick st_closing) Hle) eq_refl H).
Defined.

Lemma X8_witness :
  let st1 := snd (@PentaApi.post env_up [PyStr "/x"] kw_caller st_stale) in
  accepted kw_caller /\
  accepted ∅ /\
  fst (@PentaApi._is_expired env_up st_stale) = Ret true /\
  fst (@PentaApi._is_refresh_expired env_up
         (snd (@PentaApi._is_expired env_up st_stale))) = Ret false /\
  token (this st1) = PyStr "T2" /\
  @PentaApi.get env_up [PyStr "/y"] ∅ st1 =
  (Ret not_found,
   mkState (this st1)
     (log st1 ++
      [requests_request "GET" [PyStr "/y"]
         {[ "headers" :=
              PyDict (<[ "Content-type" := PyStr "application/json" ]>
                        {[ "Authorization" := PyStr "Bearer T2" ]}) ]}])
     3).
Proof.
  intros st1.
  assert (Ha1 : accepted kw_caller) by (split; vm_compute; reflexivity).
  assert (Ha2 : accepted ∅) by (split; reflexivity).
  assert (H1 : fst (@PentaApi._is_expired env_up st_stale) = Ret true)
    by (vm_compute; reflexivity).
  assert (H2 : fst (@PentaApi._is_refresh_expired env_up
                      (snd (@PentaApi._is_expired env_up st_stale)))
               = Ret false) by (vm_compute; reflexivity).
  split; [exact Ha1|]. split; [exact Ha2|].
  split; [exact H1|]. split; [exact H2|].
  split; [vm_compute; reflexivity|].
  refine (proj2 (@X8_refresh_serves_next_call env_up POST GET
                   [PyStr "/x"] [PyStr "/y"] kw_caller ∅ h_caller ∅
                   st_stale refresh_fields (PyStr "T2") "20300102000000"
                   1893542400000000 Ha1 Ha2 H1 H2 _ _ _ _ _ _ _ _));
    vm_compute; try reflexivity; discriminate.
Defined.

Lemma X9_witness :
  accepted ∅ /\
  fst (@PentaApi._is_expired env_down st_lapsed) = Ret true /\
  fst (@PentaApi._is_refresh_expired env_down
         (snd (@PentaApi._is_expired env_down st_lapsed))) = Ret true /\
  @PentaApi.delete env_down [PyStr "/x"] ∅ st_lapsed =
  (Raise (ValueError "Credentials not valid"),
   mkState (this st_lapsed) [login_call (this st_lapsed)] 2).
Proof.
  assert (Ha : accepted ∅) by (split; reflexivity).
  assert (H1 : fst (@PentaApi._is_expired env_down st_lapsed) = Ret true)
    by (vm_compute; reflexivity).
  assert (H2 : fst (@PentaApi._is_refresh_expired env_down
                      (snd (@PentaApi._is_expired env_down st_lapsed)))
               = Ret true) by (vm_compute; reflexivity).
  split; [exact Ha|]. split; [exact H1|]. split; [exact H2|].
  refine (@X9_failed_relogin_stops_call env_down DELETE [PyStr "/x"] ∅
            st_lapsed Ha H1 H2 _).
  vm_compute. discriminate.
Defined.

Lemma X10_witness :
  accepted ∅ /\
  accepted kw_caller /\
  this (snd (@PentaApi.get env_up [PyStr "/x"] ∅ st_stale))
  = this (snd (@PentaApi.post env_up [] kw_caller st_stale)) /\
  token (this (snd (@PentaApi.get env_up [PyStr "/x"] ∅ st_stale)))
  = PyStr "T2".
Proof.
  assert (Ha : accepted ∅) by (split; reflexivity).
  assert (Ha' : accepted kw_caller) by (split; vm_compute; reflexivity).
  split; [exact Ha|]. split; [exact Ha'|].
  split; [|vm_compute; reflexivity].
  exact (proj1 (@X10_session_independent_of_request env_up GET POST
                  [PyStr "/x"] [] ∅ kw_caller st_stale Ha Ha')).
Defined.

Lemma X11_witness :
  caller_headers kw_caller = Some h_caller /\
  @PentaApi.put env_up [PyStr "/x"]
    (<[ "headers" :=
          PyDict (@outgoing_headers env_up (PyStr "T0") h_caller) ]>
       kw_caller) st_stale
  = @PentaApi.put env_up [PyStr "/x"] kw_caller st_stale.
Proof.
  assert (H : caller_headers kw_caller = Some h_caller)
    by (vm_compute; reflexivity).
  split; [exact H|].
  exact (@X11_written_headers_can_be_reused env_up PUT [PyStr "/x"]
           kw_caller h_caller (PyStr "T0") st_stale H).
Defined.

Lemma X12_witness :
  let st' := snd (@PentaApi.get env_up [PyStr "/x"] ∅ st_stale) in
  fst (@PentaApi._is_refresh_expired env_up
         (snd (@PentaApi._is_expired env_up st_stale))) = Ret false /\
  token (this st') = PyStr "T2" /\
  refresh_token (this st') = PyStr "R1" /\
  refresh_expires (this st') = PyStr "20300101000000".
Proof.
  intros st'.
  assert (H : fst (@PentaApi._is_refresh_expired env_up
                     (snd (@PentaApi._is_expired env_up st_stale)))
              = Ret false) by (vm_compute; reflexivity).
  split; [exact H|]. split; [vm_compute; reflexivity|].
  refine (@X12_refresh_pair_changes_only_on_relogin env_up GET
            [PyStr "/x"] ∅ st_stale _).
  intros [_ Hr]. rewrite H in Hr. discriminate Hr.
Defined.

Lemma X13_witness :
  is_Some (kw_method !! "method") /\
  fst (@PentaApi._is_expired env_up st_stale) = Ret true /\
  exists msg,
    @PentaApi.get env_up [PyStr "/x"] kw_method st_stale
    = (Raise (TypeError msg), st_stale).
Proof.
  assert (H : is_Some (kw_method !! "method"))
    by (exists (PyStr "POST"); vm_compute; reflexivity).
  split; [exact H|]. split; [vm_compute; reflexivity|].
  exact (@X13_keyword_self_or_method_raises env_up GET [PyStr "/x"]
           kw_method st_stale (or_intror H)).
Defined.

Lemma X14_witness :
  @PentaApi._login env_not_json st_lapsed =
  (Raise (JSONDecodeError "Expecting value: line 1 column 1 (char 0)"),
   mkState (this st_lapsed) [login_call (this st_lapsed)] 0).
Proof.
  refine (proj1 (proj1 (@X14_body_not_an_object env_not_json st_lapsed) _)
            _ _); reflexivity.
Defined.
